(** * The performance-test pipeline orchestrator (app.py, app2.py)

    A shallow embedding of [AutomatedWorkflow] and of the [/chat] handler,
    and the properties of the orchestrator stated over it.

    Text is [String.string]; one character of the model is one byte, so the
    whitespace class of [re] and [str.strip] is Python's whitespace in the
    ASCII range.  The operating system, the child processes, the validator
    collaborator and the clock are oracles of an environment record.

    One run is sequential: the file system a scan observes does not change
    while the scan goes on.  [print], [time.sleep], [os.getcwd],
    [os.path.exists], [os.path.getsize] and [os.walk] are taken to return.
    [update_task_in_log_file] is the same function in app.py and in
    app2.py, up to the way its failure is displayed. *)

From Stdlib Require Import ZArith Lia Bool Ascii String List DecimalString.
From stdpp Require Import base option list strings gmap.

(** String concatenation is written [+:+]; it computes under [simpl]. *)
#[global] Arguments String.append !_ _ : simpl nomatch.

(** ** Text primitives *)

Module Text.

(** Python's [str.isspace] on one character, ASCII range: TAB LF VT FF CR,
    the separators FS GS RS US and the space. *)
Definition is_space (c : ascii) : bool :=
  let n := nat_of_ascii c in
  ((9 <=? n)%nat && (n <=? 13)%nat) || ((28 <=? n)%nat && (n <=? 32)%nat).

(** [strip_prefix p s] is [Some r] when [s = p +:+ r]. *)
Fixpoint strip_prefix (p s : string) : option string :=
  match p, s with
  | EmptyString, _ => Some s
  | String a p', String b s' =>
      if Ascii.eqb a b then strip_prefix p' s' else None
  | String _ _, EmptyString => None
  end.

(** [str.startswith]. *)
Definition startswith (s p : string) : bool :=
  match strip_prefix p s with Some _ => true | None => false end.

(** The longest run of non-whitespace characters at the head of [s], and
    what follows it: the greedy [[^\s]*]. *)
Fixpoint span_nonspace (s : string) : string * string :=
  match s with
  | EmptyString => (EmptyString, EmptyString)
  | String c s' =>
      if is_space c then (EmptyString, s)
      else let '(a, b) := span_nonspace s' in (String c a, b)
  end.

(** The longest run of whitespace at the head of [s] is dropped: the greedy
    [\s*] when the next pattern item is not whitespace. *)
Fixpoint skip_space (s : string) : string :=
  match s with
  | EmptyString => EmptyString
  | String c s' => if is_space c then skip_space s' else s
  end.

Definition all_nonspace (s : string) : Prop :=
  forall c, In c (list_ascii_of_string s) -> is_space c = false.

Definition of_nat (n : nat) : string :=
  NilZero.string_of_uint (Nat.to_uint n).

End Text.

(** ** The URL pattern [https?://[^\s]+] *)

Module UrlPattern.
Import Text.

(** The scheme part [https?://] anchored at the head of [s].  [s?] is
    greedy, and the alternative without the [s] is tried when the one with
    it fails. *)
Definition url_scheme_at (s : string) : option (string * string) :=
  match strip_prefix "http" s with
  | None => None
  | Some r =>
      let without_s :=
        match strip_prefix "://" r with
        | Some r'' => Some ("http://", r'')
        | None => None
        end in
      match strip_prefix "s" r with
      | Some r' =>
          match strip_prefix "://" r' with
          | Some r'' => Some ("https://", r'')
          | None => without_s
          end
      | None => without_s
      end
  end.

(** The whole pattern anchored at the head of [s]: the matched text and the
    rest.  [[^\s]+] is greedy and needs one character at least. *)
Definition match_url_at (s : string) : option (string * string) :=
  match url_scheme_at s with
  | None => None
  | Some (sch, r1) =>
      match span_nonspace r1 with
      | (EmptyString, _) => None
      | (body, rest) => Some (sch +:+ body, rest)
      end
  end.

(** [re.findall]: the non-overlapping matches, leftmost first.  [skip]
    counts the characters of the last match still to be passed over. *)
Fixpoint findall_from (skip : nat) (s : string) : list string :=
  match s with
  | EmptyString => []
  | String _ s' =>
      match skip with
      | S k => findall_from k s'
      | O =>
          match match_url_at s with
          | Some (m, _) => m :: findall_from (String.length m - 1) s'
          | None => findall_from 0 s'
          end
      end
  end.

Definition findall (s : string) : list string := findall_from 0 s.

Definition default_url : string := "https://example.com".

(** [urls[0] if urls else "https://example.com"]. *)
Definition first_url_or_default (story : string) : string :=
  match findall story with
  | u :: _ => u
  | [] => default_url
  end.

(** The URL shape as the specification words it. *)
Definition url_shaped (u : string) : Prop :=
  exists scheme body,
    (scheme = "http://" \/ scheme = "https://") /\
    u = scheme +:+ body /\ body <> EmptyString /\ all_nonspace body.

Definition has_url (story : string) : Prop :=
  exists pre u post, story = pre +:+ u +:+ post /\ url_shaped u.

(** [u] is the first URL-shaped substring of [story]: no URL-shaped
    substring starts before it, and none starting where it starts is
    longer. *)
Definition first_url (story pre u post : string) : Prop :=
  story = pre +:+ u +:+ post /\ url_shaped u /\
  (forall pre' u' post', story = pre' +:+ u' +:+ post' -> url_shaped u' ->
     (String.length pre <= String.length pre')%nat) /\
  (forall u' post', story = pre +:+ u' +:+ post' -> url_shaped u' ->
     (String.length u' <= String.length u)%nat).

End UrlPattern.

(** ** The task-block pattern with [re.DOTALL]: TASK, [\s*], an equals sign, [\s*], three double quotes, a lazy [.*?], three double quotes *)

Module TaskPattern.
Import Text.

Definition dq : ascii := ascii_of_nat 34.
Definition backslash : ascii := ascii_of_nat 92.
Definition nl : string := String (ascii_of_nat 10) EmptyString.

(** The delimiter: three double quotes. *)
Definition triple_quote : string := String dq (String dq (String dq EmptyString)).

(** The longest run of whitespace at the head of [s], and the rest: the
    greedy [\s*].  The pattern item after each [\s*] is not whitespace, so
    giving characters back never helps. *)
Fixpoint span_space (s : string) : string * string :=
  match s with
  | EmptyString => (EmptyString, EmptyString)
  | String c s' =>
      if is_space c then let '(a, b) := span_space s' in (String c a, b)
      else (EmptyString, s)
  end.

(** The lazy [.*?] followed by the closing delimiter: the text up to and
    with the first triple quote, and the rest. *)
Fixpoint until_triple_quote (s : string) : option (string * string) :=
  match s with
  | EmptyString => None
  | String c s' =>
      match strip_prefix triple_quote s with
      | Some r => Some (triple_quote, r)
      | None =>
          match until_triple_quote s' with
          | Some (m, r) => Some (String c m, r)
          | None => None
          end
      end
  end.

(** The opening (TASK, [\s*], equals sign, [\s*], delimiter) anchored at the head of [s]. *)
Definition opening_at (s : string) : option (string * string) :=
  match strip_prefix "TASK" s with
  | None => None
  | Some r0 =>
      let '(w1, r1) := span_space r0 in
      match strip_prefix "=" r1 with
      | None => None
      | Some r2 =>
          let '(w2, r3) := span_space r2 in
          match strip_prefix triple_quote r3 with
          | None => None
          | Some r4 => Some ("TASK" +:+ w1 +:+ "=" +:+ w2 +:+ triple_quote, r4)
          end
      end
  end.

(** The whole pattern anchored at the head of [s]: matched text and rest. *)
Definition match_task_at (s : string) : option (string * string) :=
  match opening_at s with
  | None => None
  | Some (op, r) =>
      match until_triple_quote r with
      | None => None
      | Some (body, rest) => Some (op +:+ body, rest)
      end
  end.

(** [re.search(task_pattern, content, re.DOTALL)] as a truth value. *)
Fixpoint search (s : string) : bool :=
  match s with
  | EmptyString => false
  | String _ s' =>
      match match_task_at s with
      | Some _ => true
      | None => search s'
      end
  end.

(** The replacement of every non-overlapping match, leftmost first, by
    [expand] of the matched text.  [skip] counts the characters of the last
    match still to be passed over. *)
Fixpoint sub_from (expand : string -> string) (skip : nat) (s : string) : string :=
  match s with
  | EmptyString => EmptyString
  | String c s' =>
      match skip with
      | S k => sub_from expand k s'
      | O =>
          match match_task_at s with
          | Some (m, _) => expand m +:+ sub_from expand (String.length m - 1) s'
          | None => String c (sub_from expand 0 s')
          end
      end
  end.

End TaskPattern.

(** ** The replacement template of [re.sub] *)

(** [re.sub] takes the replacement for literal text when it holds no
    backslash; otherwise it parses it once, before any substitution, and an
    ill-formed template raises [re.error].  The task pattern has no group, so
    the only group a template may name is group 0, the whole match. *)
Module Template.
Import Text TaskPattern.

Inductive item :=
  | Lit (text : string)
  | Group0.

Definition is_digit (c : ascii) : bool :=
  let n := nat_of_ascii c in (48 <=? n)%nat && (n <=? 57)%nat.

Definition is_octdigit (c : ascii) : bool :=
  let n := nat_of_ascii c in (48 <=? n)%nat && (n <=? 55)%nat.

Definition is_ascii_letter (c : ascii) : bool :=
  let n := nat_of_ascii c in
  ((65 <=? n)%nat && (n <=? 90)%nat) || ((97 <=? n)%nat && (n <=? 122)%nat).

Definition digit_val (c : ascii) : nat := nat_of_ascii c - 48.

Definition char (n : nat) : string := String (ascii_of_nat n) EmptyString.

Fixpoint has_backslash (s : string) : bool :=
  match s with
  | EmptyString => false
  | String c s' => Ascii.eqb c backslash || has_backslash s'
  end.

(** The group name of [\g<name>]: the text before the first [>]. *)
Fixpoint name_until_gt (s : string) : option string :=
  match s with
  | EmptyString => None
  | String c s' =>
      if Ascii.eqb c ">" then Some EmptyString
      else match name_until_gt s' with
           | Some n => Some (String c n)
           | None => None
           end
  end.

Fixpoint all_zero (s : string) : bool :=
  match s with
  | EmptyString => true
  | String c s' => Ascii.eqb c "0" && all_zero s'
  end.

(** The character escapes a template knows. *)
Definition escape (c : ascii) : option nat :=
  if Ascii.eqb c "a" then Some 7
  else if Ascii.eqb c "b" then Some 8
  else if Ascii.eqb c "f" then Some 12
  else if Ascii.eqb c "n" then Some 10
  else if Ascii.eqb c "r" then Some 13
  else if Ascii.eqb c "t" then Some 9
  else if Ascii.eqb c "v" then Some 11
  else if Ascii.eqb c backslash then Some 92
  else None.

(** What follows a backslash: the item and the number of characters read
    after the backslash; [None] is [re.error] (or [IndexError] for an
    unknown group name). *)
Definition escape_at (r : string) : option (item * nat) :=
  match r with
  | EmptyString => None
  | String e r1 =>
      if Ascii.eqb e "g" then
        match r1 with
        | String lt r2 =>
            if Ascii.eqb lt "<" then
              match name_until_gt r2 with
              | Some name =>
                  match name with
                  | EmptyString => None
                  | String _ _ =>
                      if all_zero name then Some (Group0, 3 + String.length name)
                      else None
                  end
              | None => None
              end
            else None
        | EmptyString => None
        end
      else if Ascii.eqb e "0" then
        match r1 with
        | String d1 r2 =>
            if is_octdigit d1 then
              match r2 with
              | String d2 _ =>
                  if is_octdigit d2
                  then Some (Lit (char ((8 * digit_val d1 + digit_val d2) mod 256)), 3)
                  else Some (Lit (char (digit_val d1)), 2)
              | EmptyString => Some (Lit (char (digit_val d1)), 2)
              end
            else Some (Lit (char 0), 1)
        | EmptyString => Some (Lit (char 0), 1)
        end
      else if is_digit e then
        match r1 with
        | String d1 (String d2 _) =>
            if is_octdigit e && is_octdigit d1 && is_octdigit d2 then
              let v := 64 * digit_val e + 8 * digit_val d1 + digit_val d2 in
              if (v <=? 255)%nat then Some (Lit (char v), 3) else None
            else None
        | _ => None
        end
      else
        match escape e with
        | Some n => Some (Lit (char n), 1)
        | None =>
            if is_ascii_letter e then None
            else Some (Lit (String backslash (String e EmptyString)), 1)
        end
  end.

(** [parse_template]: [skip] counts the characters of the last escape
    still to be passed over. *)
Fixpoint parse_from (skip : nat) (s : string) : option (list item) :=
  match s with
  | EmptyString => Some []
  | String c s' =>
      match skip with
      | S k => parse_from k s'
      | O =>
          if Ascii.eqb c backslash then
            match escape_at s' with
            | None => None
            | Some (it, n) =>
                match parse_from n s' with
                | Some its => Some (it :: its)
                | None => None
                end
            end
          else
            match parse_from 0 s' with
            | Some its => Some (Lit (String c EmptyString) :: its)
            | None => None
            end
      end
  end.

Definition parse_template (repl : string) : option (list item) := parse_from 0 repl.

Fixpoint expand (its : list item) (m : string) : string :=
  match its with
  | [] => EmptyString
  | Lit t :: its' => t +:+ expand its' m
  | Group0 :: its' => m +:+ expand its' m
  end.

(** [re.sub(task_pattern, repl, content, flags=re.DOTALL)]; [None] when the
    template is ill-formed. *)
Definition re_sub (repl content : string) : option string :=
  if has_backslash repl then
    match parse_template repl with
    | Some its => Some (sub_from (expand its) 0 content)
    | None => None
    end
  else Some (sub_from (fun _ => repl) 0 content).

End Template.

(** ** Task Specification Writer: [update_task_in_log_file] *)

Module Writer.
Import Text UrlPattern TaskPattern Template.

(** The task-description resource [log.py] as the program sees it: the text
    [read] returns ([None] when opening or reading raises) and whether
    opening it for writing succeeds. *)
Record TextFile := {
  content : option string;
  writable : bool
}.

(** The f-string [new_task]. *)
Definition new_task (target_url user_story : string) : string :=
  "TASK = " +:+ triple_quote +:+ nl +:+
  "As a user," +:+ nl +:+
  "I want to go to " +:+ target_url +:+ "," +:+ nl +:+
  user_story +:+ nl +:+
  "And verify the task is completed." +:+ nl +:+
  triple_quote.

(** [content.split('\n')]: one piece more than there are line feeds. *)
Fixpoint split_lines (s : string) : list string :=
  match s with
  | EmptyString => [EmptyString]
  | String c s' =>
      if Ascii.eqb c (ascii_of_nat 10) then EmptyString :: split_lines s'
      else match split_lines s' with
           | l :: ls => String c l :: ls
           | [] => [String c EmptyString]
           end
  end.

(** ['\n'.join(lines)]. *)
Fixpoint join_lines (ls : list string) : string :=
  match ls with
  | [] => EmptyString
  | [l] => l
  | l :: ls' => l +:+ nl +:+ join_lines ls'
  end.

Definition is_import_line (line : string) : bool :=
  startswith line "import " || startswith line "from ".

(** The loop over [enumerate(lines)]: the index after the last import line,
    [acc] when there is none from index [i] on. *)
Fixpoint insert_index_from (i acc : nat) (lines : list string) : nat :=
  match lines with
  | [] => acc
  | l :: ls => insert_index_from (S i) (if is_import_line l then S i else acc) ls
  end.

Definition insert_index (lines : list string) : nat := insert_index_from 0 0 lines.

(** [lines.insert(i, x)]. *)
Definition list_insert_at {A} (i : nat) (x : A) (l : list A) : list A :=
  take i l ++ x :: drop i l.

(** The new content of the resource; [None] when [re.sub] raises. *)
Definition updated_content (new_task content : string) : option string :=
  if search content then re_sub new_task content
  else
    let lines := split_lines content in
    Some (join_lines (list_insert_at (insert_index lines) (nl +:+ new_task +:+ nl) lines)).

(** [update_task_in_log_file]: the resource afterwards and the value
    returned, [None] for Python's [None]. *)
Definition update_task_in_log_file (user_story : string) (f : TextFile)
  : TextFile * option string :=
  match content f with
  | None => (f, None)
  | Some c =>
      let target_url := first_url_or_default user_story in
      match updated_content (new_task target_url user_story) c with
      | None => (f, None)
      | Some updated =>
          if writable f
          then ({| content := Some updated; writable := true |}, Some target_url)
          else (f, None)
      end
  end.

(** Python's truth value of what the writer returns. *)
Definition truthy (r : option string) : bool :=
  match r with
  | Some (String _ _) => true
  | _ => false
  end.

End Writer.

(** ** The vocabulary of the writer's properties *)

Module Block.
Import Text TaskPattern Writer.

Definition all_space (s : string) : Prop :=
  forall c, In c (list_ascii_of_string s) -> is_space c = true.

(** The texts the opening of the pattern matches. *)
Definition is_opening (op : string) : Prop :=
  exists w1 w2, all_space w1 /\ all_space w2 /\
    op = "TASK" +:+ w1 +:+ "=" +:+ w2 +:+ triple_quote.

Fixpoint mem (c : ascii) (s : string) : bool :=
  match s with
  | EmptyString => false
  | String d s' => Ascii.eqb c d || mem c s'
  end.

(** A task block: anchored at its head, the pattern matches exactly it. *)
Definition is_block (N : string) : Prop :=
  forall x, match_task_at (N +:+ x) = Some (N, x).

(** [re.sub] with the literal replacement [N]. *)
Definition replace_all (N s : string) : string := sub_from (fun _ => N) 0 s.

Definition prepend (a : string) (p : string * string) : string * string :=
  (a +:+ p.1, p.2).

(** The text of the block between its delimiters, less the last line feed. *)
Definition block_body (url story : string) : string :=
  (nl +:+ "As a user," +:+ nl +:+ "I want to go to ") +:+ url +:+
  String "," (nl +:+ story +:+ String (ascii_of_nat 10) "And verify the task is completed.").

(** Idempotence of the writer as the specification states it. *)
Definition writer_idempotence_claim (story : string) (f : TextFile) : Prop :=
  let f1 := (update_task_in_log_file story f).1 in
  (update_task_in_log_file story f1).1 = f1.

End Block.

(** ** Process Runner: [run_script_with_timeout] *)

Module Runner.
Import Text.

(** What [subprocess.run] does: it returns a completed process, or raises
    [TimeoutExpired], or raises another exception with a text. *)
Inductive run_outcome :=
  | Exited (returncode : Z) (stdout stderr : string)
  | TimeoutExpired
  | OtherError (text : string).

Record StageResult := {
  success : bool;
  returncode : Z;
  stdout : string;
  stderr : string
}.

Definition stage_result_of (timeout : nat) (o : run_outcome) : StageResult :=
  match o with
  | Exited rc out err =>
      {| success := (rc =? 0)%Z; returncode := rc; stdout := out; stderr := err |}
  | TimeoutExpired =>
      {| success := false; returncode := (-1)%Z; stdout := EmptyString;
         stderr := "Script execution timed out after " +:+ of_nat timeout +:+ " seconds" |}
  | OtherError text =>
      {| success := false; returncode := (-1)%Z; stdout := EmptyString;
         stderr := text |}
  end.

End Runner.

(** ** The orchestrator's data model *)

Module Model.
Import Text Writer Runner.

Inductive workflow_status := WInitializing | WRunning | WCompleted | WFailed.

Inductive step_status := SPending | SRunning | SCompleted | SFailed.

#[global] Instance workflow_status_eq_dec : EqDecision workflow_status.
Proof. solve_decision. Defined.

#[global] Instance step_status_eq_dec : EqDecision step_status.
Proof. solve_decision. Defined.

Record Step := {
  name : string;
  status : step_status;
  message : string
}.

(** What [validate_jmx_file] returns: a dict, read with [.get]. *)
Abbreviation report := (gmap string string).

(** The validator collaborator [JMXValidator]: each method returns, or
    raises an exception with a text. *)
Record Validator := {
  validate_jmx_file : string -> string + report;
  generate_validation_report : report -> string -> option string
}.

Record DebugInfo := {
  working_directory : string;
  output_directory_exists : bool;
  expected_files_seen : list string;
  found_files : list string;
  actual_directory_contents : list string
}.

(** The values stored under [results]. *)
Inductive payload :=
  | PStage (r : StageResult)
  | PFiles (files : list string)
  | PDebug (d : DebugInfo)
  | PValidation (vs : list (string * report)).

Record Workflow := {
  workflow_id : string;
  user_story : string;
  wf_status : workflow_status;
  current_step : Z;
  steps : list Step;
  results : gmap string payload;
  target_url : option string;
  validator : option Validator
}.

(** The file system as the scans observe it: [os.path.exists],
    [os.path.getsize] and the triples [os.walk] yields. *)
Record FS := {
  path_exists : string -> bool;
  getsize : string -> nat;
  walk : string -> list (string * list string * list string)
}.

(** The collaborators outside the program. *)
Record Env := {
  network_logger_module : bool;
  test_steps_module : bool;
  jmx_generator_module : bool;
  validation_module : bool;
  (** [JMXValidator()] and [JMeterExecutor()]: [None] when one raises *)
  make_validator : option Validator;
  (** [subprocess.run] of a script with a timeout, on the current file
      system: what it reports and the file system it leaves *)
  spawn : string -> nat -> FS -> run_outcome * FS;
  (** [os.makedirs(path, exist_ok=True)]: the text of the exception when
      it raises *)
  makedirs : string -> FS -> string + FS;
  getcwd : string;
  (** the [strftime] stamp of the clock at the n-th report *)
  now : nat -> string;
  (** [MODULE_ERRORS], filled while the modules are imported *)
  MODULE_ERRORS : list string;
  (** [str(uuid.uuid4())] at the n-th workflow of the registry *)
  uuid4 : nat -> string
}.

Definition MODULES_AVAILABLE (env : Env) : bool :=
  network_logger_module env && test_steps_module env &&
  jmx_generator_module env && validation_module env.

(** What lies outside the workflow object and is changed by running it. *)
Record World := {
  log_py : TextFile;
  fs : FS;
  launched : list (string * nat);
  validated : list string;
  reported : list string
}.

Definition initial_steps : list Step :=
  [ {| name := "🤖 AI Planner Analysis"; status := SPending; message := EmptyString |};
    {| name := "🌐 Network Logging"; status := SPending; message := EmptyString |};
    {| name := "⚙️ Test Steps Generation"; status := SPending; message := EmptyString |};
    {| name := "🎯 JMX Script Creation"; status := SPending; message := EmptyString |};
    {| name := "🔍 JMX Validation"; status := SPending; message := EmptyString |} ].

(** [AutomatedWorkflow.__init__]. *)
Definition new_workflow (env : Env) (workflow_id user_story : string) : Workflow :=
  {| workflow_id := workflow_id;
     user_story := user_story;
     wf_status := WInitializing;
     current_step := 0;
     steps := initial_steps;
     results := ∅;
     target_url := None;
     validator :=
       if MODULES_AVAILABLE env && validation_module env
       then make_validator env else None |}.

(** Attribute writes. *)
Definition set_wf_status (st : workflow_status) (w : Workflow) : Workflow :=
  {| workflow_id := workflow_id w; user_story := user_story w; wf_status := st;
     current_step := current_step w; steps := steps w; results := results w;
     target_url := target_url w; validator := validator w |}.

Definition set_current_step (i : Z) (w : Workflow) : Workflow :=
  {| workflow_id := workflow_id w; user_story := user_story w;
     wf_status := wf_status w; current_step := i; steps := steps w;
     results := results w; target_url := target_url w; validator := validator w |}.

Definition set_steps (l : list Step) (w : Workflow) : Workflow :=
  {| workflow_id := workflow_id w; user_story := user_story w;
     wf_status := wf_status w; current_step := current_step w; steps := l;
     results := results w; target_url := target_url w; validator := validator w |}.

Definition set_result (key : string) (v : payload) (w : Workflow) : Workflow :=
  {| workflow_id := workflow_id w; user_story := user_story w;
     wf_status := wf_status w; current_step := current_step w; steps := steps w;
     results := <[key := v]> (results w);
     target_url := target_url w; validator := validator w |}.

Definition set_target_url (u : string) (w : Workflow) : Workflow :=
  {| workflow_id := workflow_id w; user_story := user_story w;
     wf_status := wf_status w; current_step := current_step w; steps := steps w;
     results := results w; target_url := Some u; validator := validator w |}.

(** [self.steps[i]["status"] = st] and [self.steps[i]["message"] = msg],
    for an index in range. *)
Definition set_step_status (i : nat) (st : step_status) (w : Workflow) : Workflow :=
  set_steps
    (alter (fun s => {| name := name s; status := st; message := message s |}) i (steps w)) w.

Definition set_step_message (i : nat) (msg : string) (w : Workflow) : Workflow :=
  set_steps
    (alter (fun s => {| name := name s; status := status s; message := msg |}) i (steps w)) w.

(** The guard of [update_step_status]: [0 <= step_index < len(self.steps)]. *)
Definition in_range (i : Z) (w : Workflow) : bool :=
  (0 <=? i)%Z && (i <? Z.of_nat (length (steps w)))%Z.

End Model.

(** ** The machine the workflow runs on *)

Module Machine.
Import Text Writer Runner Model.

(** The workflow object, the world around it, and every state the workflow
    object has been in, newest first: one entry per attribute write. *)
Record State := {
  wf : Workflow;
  world : World;
  history : list Workflow
}.

(** How a block of statements ends: it falls through with a value, it
    executes [return], or it raises an exception with a text. *)
Inductive flow (A : Type) :=
  | Normal (a : A)
  | Returned
  | Raised (e : string).
Arguments Normal {A} a.
Arguments Returned {A}.
Arguments Raised {A} e.

Definition M (A : Type) : Type := State -> State * flow A.

#[global] Instance M_ret : MRet M := fun A a st => (st, Normal a).

#[global] Instance M_bind : MBind M := fun A B k c st =>
  match c st with
  | (st', Normal a) => k a st'
  | (st', Returned) => (st', Returned)
  | (st', Raised e) => (st', Raised e)
  end.

Definition return_ {A} : M A := fun st => (st, Returned).

Definition raise {A} (e : string) : M A := fun st => (st, Raised e).

(** [try: body except Exception as e: handler(str(e))]. *)
Definition try_except (body : M unit) (handler : string -> M unit) : M unit :=
  fun st =>
    match body st with
    | (st', Raised e) => handler e st'
    | r => r
    end.

(** One attribute write on the workflow object. *)
Definition push (f : Workflow -> Workflow) (st : State) : State :=
  {| wf := f (wf st); world := world st; history := f (wf st) :: history st |}.

Definition write (f : Workflow -> Workflow) : M unit := fun st =>
  (push f st, Normal tt).

Definition read {A} (f : Workflow -> A) : M A := fun st => (st, Normal (f (wf st))).

Definition read_world {A} (f : World -> A) : M A := fun st => (st, Normal (f (world st))).

Definition write_world (f : World -> World) : M unit := fun st =>
  ({| wf := wf st; world := f (world st); history := history st |}, Normal tt).

Definition when (b : bool) (c : M unit) : M unit := if b then c else mret tt.

(** The three assignments of [update_step_status], in order. *)
Definition step_writes (step_index : Z) (st : step_status) (msg : string) (s : State) : State :=
  push (set_current_step step_index)
    (push (set_step_message (Z.to_nat step_index) msg)
       (push (set_step_status (Z.to_nat step_index) st) s)).

(** [update_step_status]. *)
Definition update_step_status (step_index : Z) (st : step_status) (msg : string) : M unit :=
  fun s =>
    if in_range step_index (wf s) then (step_writes step_index st msg s, Normal tt)
    else (s, Normal tt).

(** [update_task_in_log_file] on the world's [log.py]. *)
Definition update_task (user_story : string) : M (option string) :=
  f ← read_world log_py;
  let '(f', r) := update_task_in_log_file user_story f in
  write_world (fun w => {| log_py := f'; fs := fs w; launched := launched w;
                           validated := validated w; reported := reported w |});;
  mret r.

(** [run_script_with_timeout]: one call of [subprocess.run], whose outcome
    is turned into a result dict. *)
Definition run_script_with_timeout (env : Env) (script_name : string) (timeout : nat)
  : M StageResult :=
  cur ← read_world fs;
  let '(o, fs') := spawn env script_name timeout cur in
  write_world (fun w => {| log_py := log_py w; fs := fs';
                           launched := launched w ++ [(script_name, timeout)];
                           validated := validated w; reported := reported w |});;
  mret (stage_result_of timeout o).

(** [os.makedirs(path, exist_ok=True)]. *)
Definition os_makedirs (env : Env) (path : string) : M unit :=
  cur ← read_world fs;
  match makedirs env path cur with
  | inr fs' =>
      write_world (fun w => {| log_py := log_py w; fs := fs'; launched := launched w;
                               validated := validated w; reported := reported w |})
  | inl e => raise e
  end.

End Machine.

(** ** Artifact Scanner and Validation Aggregator *)

Module Scan.
Import Text TaskPattern Model Machine.

Fixpoint endswith (s suffix : string) : bool :=
  String.eqb s suffix ||
  match s with
  | EmptyString => false
  | String _ s' => endswith s' suffix
  end.

Fixpoint has_slash (s : string) : bool :=
  match s with
  | EmptyString => false
  | String c s' => Ascii.eqb c "/" || has_slash s'
  end.

(** [os.path.basename]: what follows the last slash. *)
Fixpoint basename (s : string) : string :=
  match s with
  | EmptyString => EmptyString
  | String c s' =>
      if has_slash s' then basename s'
      else if Ascii.eqb c "/" then s' else s
  end.

(** [os.path.join(root, file)]. *)
Definition path_join (root file : string) : string :=
  if startswith file "/" then file
  else if String.eqb root EmptyString || endswith root "/" then root +:+ file
  else root +:+ "/" +:+ file.

Definition expected_files : list string :=
  [ "TestSteps_Output/test_steps_structured.json";
    "TestSteps_Output/test_steps_simple.json";
    "TestSteps_Output/TestSteps.txt";
    "TestSteps_Output/correlation_rules.json" ].

(** The loop over [expected_files]: those that exist, in order. *)
Definition found_expected (f : FS) : list string :=
  List.filter (path_exists f) expected_files.

(** The loops over [os.walk(dir)] and over the files of each triple. *)
Definition walk_files (f : FS) (dir : string) : list string :=
  flat_map (fun '(root, _, files) => map (path_join root) files) (walk f dir).

(** [if file_path not in output_files: output_files.append(file_path)],
    for each of the files walked. *)
Definition add_missing (output_files actual_files : list string) : list string :=
  fold_left (fun acc p => if bool_decide (p ∈ acc) then acc else acc ++ [p])
            actual_files output_files.

(** The local variable [actual_files]: bound only in the branch where the
    output directory exists. *)
Definition actual_files_var (f : FS) : option (list string) :=
  if path_exists f "TestSteps_Output"
  then Some (walk_files f "TestSteps_Output") else None.

Definition output_files_of (f : FS) : list string :=
  match actual_files_var f with
  | Some actual => add_missing (found_expected f) actual
  | None => found_expected f
  end.

(** [actual_files if os.path.exists('TestSteps_Output') else []]: reading
    the variable while it is unbound raises [NameError]. *)
Definition read_actual_files (f : FS) (var : option (list string)) : M (list string) :=
  if path_exists f "TestSteps_Output" then
    match var with
    | Some actual => mret actual
    | None => raise "name 'actual_files' is not defined"
    end
  else mret [].

(** The JMX files under [JMX_SCRIPT_OUTPUT]. *)
Definition jmx_files_of (f : FS) : list string :=
  if path_exists f "JMX_SCRIPT_OUTPUT" then
    flat_map (fun '(root, _, files) =>
                map (path_join root) (List.filter (fun file => endswith file ".jmx") files))
             (walk f "JMX_SCRIPT_OUTPUT")
  else [].

(** [chr(10).join(...)]. *)
Definition join_nl (ls : list string) : string := Writer.join_lines ls.

Definition log_validated (file : string) (w : World) : World :=
  {| log_py := log_py w; fs := fs w; launched := launched w;
     validated := validated w ++ [file]; reported := reported w |}.

Definition log_reported (path : string) (w : World) : World :=
  {| log_py := log_py w; fs := fs w; launched := launched w;
     validated := validated w; reported := reported w ++ [path] |}.

(** The loop [for jmx_file in jmx_files], appending to
    [validation_results]. *)
Fixpoint validate_all (env : Env) (v : Validator) (jmx_files : list string)
    (validation_results : list (string * report)) : M (list (string * report)) :=
  match jmx_files with
  | [] => mret validation_results
  | jmx_file :: rest =>
      write_world (log_validated jmx_file);;
      match validate_jmx_file v jmx_file with
      | inl e => raise e
      | inr validation_result =>
          let validation_results' := validation_results ++ [(jmx_file, validation_result)] in
          n ← read_world (fun w => length (reported w));
          let report_path := "validation_report_" +:+ now env n +:+ ".json" in
          write_world (log_reported report_path);;
          match generate_validation_report v validation_result report_path with
          | Some e => raise e
          | None => validate_all env v rest validation_results'
          end
      end
  end.

(** [sum(1 for vr in validation_results
         if vr['result'].get('overall_status') == cls)]. *)
Definition tally (cls : string) (validation_results : list (string * report)) : nat :=
  list_sum (map (fun _ => 1%nat)
    (List.filter (fun vr => bool_decide (snd vr !! "overall_status" = Some cls))
                 validation_results)).

End Scan.

(** ** Stage Sequencer: [execute_workflow] *)

Module Sequencer.
Import Text UrlPattern TaskPattern Writer Runner Model Machine Scan.

Definition planning_message (target_url user_story : string) : string :=
  "✅ **Analysis Complete!**" +:+ nl +:+ nl +:+
  "📋 **Automation Plan:**" +:+ nl +:+
  "• Target URL: " +:+ target_url +:+ nl +:+
  "• User Story: " +:+ user_story +:+ nl +:+ nl +:+
  "🔄 **Execution Sequence:**" +:+ nl +:+
  "1. Network traffic capture and analysis" +:+ nl +:+
  "2. Test steps generation with correlation" +:+ nl +:+
  "3. JMX script creation for JMeter" +:+ nl +:+
  "4. Validation and quality assurance" +:+ nl +:+ nl +:+
  "🚀 **Starting automated execution...**".

Definition network_message (target_url : string) : string :=
  "✅ **Network Logging Complete!**" +:+ nl +:+
  "• Target URL: " +:+ target_url +:+ nl +:+
  "• Network traffic captured successfully" +:+ nl +:+
  "• Correlation data prepared".

Definition test_steps_message (output_files : list string) : string :=
  "✅ **Test Steps Generation Complete!**" +:+ nl +:+
  "• Files created: " +:+ of_nat (length output_files) +:+ nl +:+
  "• Output directory: TestSteps_Output/" +:+ nl +:+
  "• Test steps structured and ready" +:+ nl +:+
  "• Correlation rules defined" +:+ nl +:+ nl +:+
  "📁 **Created Files:**" +:+ nl +:+
  (match output_files with
   | [] => "• No files detected - check TestSteps.py output"
   | _ => join_nl (map (fun f => "• " +:+ basename f) output_files)
   end) +:+ nl +:+ nl +:+
  "📍 **Full paths:**" +:+ nl +:+
  (match output_files with
   | [] => "• No files found"
   | _ => join_nl (map (fun f => "• " +:+ f) output_files)
   end).

Definition jmx_message (jmx_files : list string) : string :=
  "✅ **JMX Generation Complete!**" +:+ nl +:+
  "• JMX files created: " +:+ of_nat (length jmx_files) +:+ nl +:+
  "• Ready for JMeter execution" +:+ nl +:+
  "• Performance test scripts prepared".

Definition validation_message (passed warnings failed : nat) : string :=
  "✅ **Validation Complete!**" +:+ nl +:+ nl +:+
  "📊 **Quality Assessment:**" +:+ nl +:+
  "• ✅ Passed: " +:+ of_nat passed +:+ nl +:+
  "• ⚠️ Warnings: " +:+ of_nat warnings +:+ "  " +:+ nl +:+
  "• ❌ Failed: " +:+ of_nat failed +:+ nl +:+ nl +:+
  "🎉 **Performance Test Ready!**" +:+ nl +:+
  "Your complete JMeter test suite is ready for execution.".

(** The f-string rendering of [self.target_url]. *)
Definition show_url (u : option string) : string :=
  match u with Some t => t | None => "None" end.

(** [self.results.get('jmx_files', [])]. *)
Definition get_jmx_files (w : Workflow) : list string :=
  match results w !! "jmx_files" with
  | Some (PFiles l) => l
  | _ => []
  end.

(** Step 1: AI Planner Analysis. *)
Definition stage_analysis : M unit :=
  update_step_status 0 SRunning
    "🤖 Analyzing user story and planning automation sequence...";;
  story ← read user_story;
  let url := first_url_or_default story in
  write (set_target_url url);;
  update_step_status 0 SCompleted (planning_message url story).

(** Step 2: Network Logging. *)
Definition stage_network (env : Env) : M unit :=
  when (negb (network_logger_module env))
    (update_step_status 1 SFailed "❌ log.py module not available";;
     write (set_wf_status WFailed);;
     return_);;
  update_step_status 1 SRunning "🌐 Executing network traffic capture...";;
  story ← read user_story;
  r ← update_task story;
  when (negb (truthy r))
    (update_step_status 1 SFailed "❌ Failed to update TASK in log.py";;
     write (set_wf_status WFailed);;
     return_);;
  result ← run_script_with_timeout env "log.py" 300;
  if success result then
    url ← read target_url;
    update_step_status 1 SCompleted (network_message (show_url url));;
    write (set_result "network_logging" (PStage result))
  else
    update_step_status 1 SFailed ("❌ Network logging failed: " +:+ stderr result);;
    write (set_wf_status WFailed);;
    return_.

(** Step 3: Test Steps Generation. *)
Definition stage_test_steps (env : Env) : M unit :=
  when (negb (test_steps_module env))
    (update_step_status 2 SFailed "❌ TestSteps.py module not available";;
     write (set_wf_status WFailed);;
     return_);;
  update_step_status 2 SRunning "⚙️ Generating test steps with correlation mapping...";;
  os_makedirs env "TestSteps_Output";;
  result ← run_script_with_timeout env "TestSteps.py" 120;
  if success result then
    f ← read_world fs;
    let actual_files := actual_files_var f in
    let output_files := output_files_of f in
    update_step_status 2 SCompleted (test_steps_message output_files);;
    write (set_result "test_steps" (PStage result));;
    write (set_result "output_files" (PFiles output_files));;
    actual ← read_actual_files f actual_files;
    write (set_result "teststeps_debug"
             (PDebug {| working_directory := getcwd env;
                        output_directory_exists := path_exists f "TestSteps_Output";
                        expected_files_seen := expected_files;
                        found_files := output_files;
                        actual_directory_contents := actual |}))
  else
    update_step_status 2 SFailed ("❌ Test steps generation failed: " +:+ stderr result);;
    write (set_wf_status WFailed);;
    return_.

(** Step 4: JMX Generation. *)
Definition stage_jmx (env : Env) : M unit :=
  when (negb (jmx_generator_module env))
    (update_step_status 3 SFailed "❌ PTScript.py module not available";;
     write (set_wf_status WFailed);;
     return_);;
  update_step_status 3 SRunning "🎯 Creating JMX scripts for JMeter...";;
  os_makedirs env "JMX_SCRIPT_OUTPUT";;
  result ← run_script_with_timeout env "PTScript.py" 180;
  if success result then
    f ← read_world fs;
    let jmx_files := jmx_files_of f in
    update_step_status 3 SCompleted (jmx_message jmx_files);;
    write (set_result "jmx_generation" (PStage result));;
    write (set_result "jmx_files" (PFiles jmx_files))
  else
    update_step_status 3 SFailed ("❌ JMX generation failed: " +:+ stderr result);;
    write (set_wf_status WFailed);;
    return_.

(** Step 5: Validation. *)
Definition stage_validation (env : Env) : M unit :=
  v ← read validator;
  match (if validation_module env then v else None) with
  | None =>
      update_step_status 4 SFailed "❌ validation.py module not available";;
      write (set_wf_status WFailed);;
      return_
  | Some v =>
      update_step_status 4 SRunning
        "🔍 Validating JMX scripts and performing quality checks...";;
      try_except
        (jmx_files ← read get_jmx_files;
         when (bool_decide (jmx_files = []))
           (update_step_status 4 SFailed "❌ No JMX files found to validate";;
            write (set_wf_status WFailed);;
            return_);;
         validation_results ← validate_all env v jmx_files [];
         let passed := tally "pass" validation_results in
         let warnings := tally "warning" validation_results in
         let failed := tally "fail" validation_results in
         update_step_status 4 SCompleted (validation_message passed warnings failed);;
         write (set_result "validation" (PValidation validation_results));;
         write (set_wf_status WCompleted))
        (fun e =>
           update_step_status 4 SFailed ("❌ Validation failed: " +:+ e);;
           write (set_wf_status WFailed);;
           return_)
  end.

(** [execute_workflow]: the state it leaves. *)
Definition execute_workflow (env : Env) (st : State) : State :=
  fst (try_except
         (write (set_wf_status WRunning);;
          stage_analysis;;
          stage_network env;;
          stage_test_steps env;;
          stage_jmx env;;
          stage_validation env)
         (fun e =>
            write (set_wf_status WFailed);;
            cur ← read current_step;
            update_step_status cur SFailed ("❌ Workflow error: " +:+ e))
         st).

End Sequencer.

(** ** The [/chat] handler and the Workflow Registry *)

Module Chat.
Import Text UrlPattern TaskPattern Writer Model.

(** [str.lower], ASCII range. *)
Definition lower_char (c : ascii) : ascii :=
  let n := nat_of_ascii c in
  if (65 <=? n)%nat && (n <=? 90)%nat then ascii_of_nat (n + 32) else c.

Fixpoint lower (s : string) : string :=
  match s with
  | EmptyString => EmptyString
  | String c s' => String (lower_char c) (lower s')
  end.

Fixpoint rstrip (s : string) : string :=
  match s with
  | EmptyString => EmptyString
  | String c s' =>
      match rstrip s' with
      | EmptyString => if is_space c then EmptyString else String c EmptyString
      | r => String c r
      end
  end.

(** [str.strip]. *)
Definition strip (s : string) : string := rstrip (skip_space s).

(** [s[:n]]. *)
Fixpoint prefix (n : nat) (s : string) : string :=
  match n, s with
  | S k, String c s' => String c (prefix k s')
  | _, _ => EmptyString
  end.

(** The Flask session: the key [messages] is there once the index page has
    been served; [current_workflow] is read with [.get] only. *)
Record Session := {
  messages : option (list (string * string));
  current_workflow : option string
}.

(** The session and the global [active_workflows]. *)
Record App := {
  session : Session;
  active_workflows : gmap string Workflow
}.

Inductive response :=
  | ErrorEmpty                                   (* {'error': 'Empty message'}, 400 *)
  | ResetDone (text : string)                    (* {'response', 'reset': True} *)
  | InProgress (text : string) (status : Workflow)
  | Said (text : string)                         (* {'response': response} *)
  | Started (text : string) (workflow_id : string).

Definition reset_text : string := "🔄 **Reset Complete!** Ready for new user story.".

Definition in_progress_text : string :=
  "⚠️ **Workflow in progress!** Please wait for current automation to complete, or type " +:+
  String dq "reset" +:+ String dq " to start over.".

Definition cannot_start_text (errors : list string) : string :=
  "❌ **Cannot start workflow!** Some required modules are missing:" +:+ nl +:+
  join_lines (map (fun e => "• " +:+ e) errors).

Definition url_prompt : string :=
  "❓ **Please provide a user story with a URL** (e.g., 'Test login functionality for https://example.com')".

Definition started_text (user_input workflow_id : string) : string :=
  "🚀 **Automated Workflow Started!**" +:+ nl +:+ nl +:+
  "📝 **User Story**: " +:+ user_input +:+ nl +:+
  "🆔 **Workflow ID**: " +:+ prefix 8 workflow_id +:+ "..." +:+ nl +:+ nl +:+
  "🤖 **AI is now executing the complete automation sequence:**" +:+ nl +:+ nl +:+
  "1. 🤖 AI Planner Analysis" +:+ nl +:+
  "2. 🌐 Network Logging  " +:+ nl +:+
  "3. ⚙️ Test Steps Generation" +:+ nl +:+
  "4. 🎯 JMX Script Creation" +:+ nl +:+
  "5. 🔍 JMX Validation" +:+ nl +:+ nl +:+
  "⏱️ **Estimated time**: 5-10 minutes" +:+ nl +:+
  "🔄 **Status updates** will appear automatically below.".

(** [session['messages'].append(user); session['messages'].append(reply)]:
    [None] is the [KeyError] of a session without the key. *)
Definition append_exchange (user_input reply : string) (s : Session) : option Session :=
  match messages s with
  | None => None
  | Some ms =>
      Some {| messages := Some (ms ++ [("user", user_input); ("assistant", reply)]);
              current_workflow := current_workflow s |}
  end.

(** [start_automated_workflow]: the new id and the registry with the new
    workflow; its thread runs on its own. *)
Definition start_automated_workflow (env : Env) (user_story : string)
    (reg : gmap string Workflow) : string * gmap string Workflow :=
  let workflow_id := uuid4 env (size reg) in
  (workflow_id, <[workflow_id := new_workflow env workflow_id user_story]> reg).

Definition is_reset_command (user_input : string) : bool :=
  bool_decide (lower user_input ∈ ["reset"; "new test"; "start over"]).

(** The workflow of the session when it is still going. *)
Definition workflow_in_progress (app : App) : option Workflow :=
  match current_workflow (session app) with
  | Some (String c id') =>
      match active_workflows app !! String c id' with
      | Some w =>
          if bool_decide (wf_status w ∈ [WRunning; WInitializing]) then Some w else None
      | None => None
      end
  | _ => None
  end.

(** [chat]: the application afterwards and the reply, or the text of the
    exception that escapes the handler. *)
Definition chat (env : Env) (message : string) (app : App) : App * (string + response) :=
  let user_input := strip message in
  if bool_decide (user_input = EmptyString) then (app, inr ErrorEmpty)
  else if is_reset_command user_input then
    ({| session := {| messages := Some []; current_workflow := None |};
        active_workflows := active_workflows app |},
     inr (ResetDone reset_text))
  else
    match workflow_in_progress app with
    | Some w => (app, inr (InProgress in_progress_text w))
    | None =>
        if negb (MODULES_AVAILABLE env) then
          let reply := cannot_start_text (MODULE_ERRORS env) in
          match append_exchange user_input reply (session app) with
          | None => (app, inl "KeyError: 'messages'")
          | Some s' =>
              ({| session := s'; active_workflows := active_workflows app |},
               inr (Said reply))
          end
        else
          match findall user_input with
          | [] =>
              match append_exchange user_input url_prompt (session app) with
              | None => (app, inl "KeyError: 'messages'")
              | Some s' =>
                  ({| session := s'; active_workflows := active_workflows app |},
                   inr (Said url_prompt))
              end
          | _ :: _ =>
              let '(workflow_id, reg) :=
                start_automated_workflow env user_input (active_workflows app) in
              let s1 := {| messages := messages (session app);
                           current_workflow := Some workflow_id |} in
              let reply := started_text user_input workflow_id in
              match append_exchange user_input reply s1 with
              | None => ({| session := s1; active_workflows := reg |},
                         inl "KeyError: 'messages'")
              | Some s' =>
                  ({| session := s'; active_workflows := reg |},
                   inr (Started reply workflow_id))
              end
          end
    end.

(** The rejection of a submission as the specification states it. *)
Definition submission_claim (env : Env) (message : string) (app : App) : Prop :=
  let story := strip message in
  let r := chat env message app in
  (story = EmptyString -> r.2 = inr ErrorEmpty) /\
  (story <> EmptyString -> ~ has_url story -> r.2 = inr (Said url_prompt)) /\
  (~ has_url story -> active_workflows r.1 = active_workflows app).

(** A session that has seen the index page, and an empty registry. *)
Definition fresh_app : App :=
  {| session := {| messages := Some []; current_workflow := None |};
     active_workflows := ∅ |}.

End Chat.

(** ** The vocabulary of the properties *)

Module Props.
Import Text UrlPattern Writer Runner Model Machine Scan Sequencer.

(** A workflow as [start_automated_workflow] hands it to its thread. *)
Definition start (env : Env) (workflow_id user_story : string) (w0 : World) : State :=
  let w := new_workflow env workflow_id user_story in
  {| wf := w; world := w0; history := [w] |}.

Definition statuses (w : Workflow) : list step_status := map status (steps w).

(** The states the workflow object goes through, oldest first. *)
Definition trace (st : State) : list Workflow := rev (history st).

Definition terminal (s : step_status) : Prop := s = SCompleted \/ s = SFailed.

Definition at_most_one_running (l : list step_status) : Prop :=
  forall i j, l !! i = Some SRunning -> l !! j = Some SRunning -> i = j.

(** A running step is the lowest-indexed step that is not terminal. *)
Definition running_is_lowest (l : list step_status) : Prop :=
  forall i j, l !! i = Some SRunning -> (j < i)%nat ->
    exists s, l !! j = Some s /\ terminal s.

(** The changes of one step's status that the specification allows. *)
Definition strict_change (s s' : step_status) : Prop :=
  s = s' \/ (s = SPending /\ s' = SRunning) \/ (s = SRunning /\ terminal s').

(** The collaborator of the stage at index [i] is missing: its module did
    not load, or, for the validation, there is no validator object. *)
Definition unavailable (env : Env) (w : Workflow) (i : nat) : bool :=
  match i with
  | 1 => negb (network_logger_module env)
  | 2 => negb (test_steps_module env)
  | 3 => negb (jmx_generator_module env)
  | 4 => negb (validation_module env) ||
         match validator w with Some _ => false | None => true end
  | _ => false
  end%nat.

(** The changes the program makes: the allowed ones, and pending to failed
    when the collaborator of the stage is missing. *)
Definition change (env : Env) (w : Workflow) (i : nat) (s s' : step_status) : Prop :=
  strict_change s s' \/ (s = SPending /\ s' = SFailed /\ unavailable env w i = true).

(** Every pair of successive states of a trace satisfies [R] at every step. *)
Definition stepwise (R : nat -> step_status -> step_status -> Prop)
    (tr : list Workflow) : Prop :=
  forall n w w' i s s',
    tr !! n = Some w -> tr !! S n = Some w' ->
    statuses w !! i = Some s -> statuses w' !! i = Some s' -> R i s s'.

(** The status machine as the specification states it. *)
Definition status_machine_claim (env : Env) (id story : string) (w0 : World) : Prop :=
  let tr := trace (execute_workflow env (start env id story w0)) in
  (forall w, w ∈ tr -> at_most_one_running (statuses w) /\ running_is_lowest (statuses w)) /\
  stepwise (fun _ => strict_change) tr.

(** [k] is the index of the first failed step. *)
Definition first_failed (l : list step_status) (k : nat) : Prop :=
  l !! k = Some SFailed /\ forall j, (j < k)%nat -> l !! j <> Some SFailed.

(** The stage that records a key of [results]. *)
Definition recorded_by (key : string) : option nat :=
  if String.eqb key "network_logging" then Some 1%nat
  else if String.eqb key "test_steps" then Some 2%nat
  else if String.eqb key "output_files" then Some 2%nat
  else if String.eqb key "teststeps_debug" then Some 2%nat
  else if String.eqb key "jmx_generation" then Some 3%nat
  else if String.eqb key "jmx_files" then Some 3%nat
  else if String.eqb key "validation" then Some 4%nat
  else None.

(** The workflow has its five steps. *)
Definition five_steps (st : State) : Prop := length (steps (wf st)) = 5%nat.

(** What the validator says of a script: the [overall_status] of the dict
    it returns, nothing when it raises or the dict has no such key. *)
Definition classification (v : Validator) (file : string) : option string :=
  match validate_jmx_file v file with
  | inr r => r !! "overall_status"
  | inl _ => None
  end.

(** The dict the validator returns for a script. *)
Definition the_report (v : Validator) (file : string) : report :=
  match validate_jmx_file v file with inr r => r | inl _ => ∅ end.

(** The number of scripts the validator classifies [cls]. *)
Definition count_classified (v : Validator) (cls : string) (files : list string) : nat :=
  length (List.filter (fun f => bool_decide (classification v f = Some cls)) files).

(** The check of a script and the writing of its report both return. *)
Definition check_returns (v : Validator) (file : string) : Prop :=
  exists r, validate_jmx_file v file = inr r /\
            forall path, generate_validation_report v r path = None.

(** The check of a script returns a classification. *)
Definition check_classifies (v : Validator) (file : string) : Prop :=
  exists r cls, validate_jmx_file v file = inr r /\ r !! "overall_status" = Some cls.

(** The validation tally as the specification states it: it asks of the
    validator only that its checks return a classification. *)
Definition tally_claim (env : Env) (st : State) (v : Validator) (files : list string) : Prop :=
  five_steps st ->
  validation_module env = true ->
  validator (wf st) = Some v ->
  results (wf st) !! "jmx_files" = Some (PFiles files) ->
  files <> [] ->
  (forall f, f ∈ files -> check_classifies v f) ->
  let r := stage_validation env st in
  message <$> steps (wf r.1) !! 4%nat =
    Some (validation_message (count_classified v "pass" files)
                             (count_classified v "warning" files)
                             (count_classified v "fail" files)) /\
  wf_status (wf r.1) = WCompleted.

(** Boolean forms, for the states a run ends in. *)
Definition is_terminal (s : step_status) : bool :=
  match s with SCompleted | SFailed => true | _ => false end.

Definition is_running (s : step_status) : bool :=
  match s with SRunning => true | _ => false end.

Fixpoint running_ok (l : list step_status) : bool :=
  match l with
  | [] => true
  | s :: l' =>
      if is_terminal s then running_ok l'
      else forallb (fun s' => negb (is_running s')) l'
  end.

(** [allow i] tells whether step [i] may go from pending to failed. *)
Definition change_ok (allow : nat -> bool) (i : nat) (s s' : step_status) : bool :=
  match s, s' with
  | SPending, SPending | SRunning, SRunning
  | SCompleted, SCompleted | SFailed, SFailed => true
  | SPending, SRunning | SRunning, SCompleted | SRunning, SFailed => true
  | SPending, SFailed => allow i
  | _, _ => false
  end.

Fixpoint changes_ok (allow : nat -> bool) (i : nat) (l l' : list step_status) : bool :=
  match l, l' with
  | s :: r, s' :: r' => change_ok allow i s s' && changes_ok allow (S i) r r'
  | _, _ => true
  end.

Fixpoint changes_trace_ok (allow : nat -> bool) (tr : list (list step_status)) : bool :=
  match tr with
  | l :: rest =>
      match rest with
      | l' :: _ => changes_ok allow 0 l l' && changes_trace_ok allow rest
      | [] => true
      end
  | [] => true
  end.

Definition trace_ok (allow : nat -> bool) (tr : list (list step_status)) : bool :=
  forallb running_ok tr && changes_trace_ok allow tr.

Fixpoint find_failed (i : nat) (l : list step_status) : option nat :=
  match l with
  | [] => None
  | SFailed :: _ => Some i
  | _ :: l' => find_failed (S i) l'
  end.

Definition fail_fast_ok (w : Workflow) : bool :=
  match find_failed 0 (statuses w) with
  | None => true
  | Some k =>
      bool_decide (wf_status w = WFailed) &&
      forallb (fun s => bool_decide (s = SPending)) (drop (S k) (statuses w)) &&
      forallb (fun key => match recorded_by key with
                          | Some j => (j <=? k)%nat
                          | None => false
                          end)
              (map fst (map_to_list (results w)))
  end.

End Props.

(** ** Concrete collaborators, to run the program on *)

Module Samples.
Import Text Writer Runner Model Machine Props.

Definition story_with_url : string := "Test login for https://example.com".

(** A file system with the two output directories and two scripts. *)
Definition fs_two_scripts : FS :=
  {| path_exists := fun p => bool_decide (p ∈ ["TestSteps_Output"; "JMX_SCRIPT_OUTPUT";
                                              "TestSteps_Output/TestSteps.txt"]);
     getsize := fun _ => 42%nat;
     walk := fun dir =>
       if String.eqb dir "JMX_SCRIPT_OUTPUT"
       then [(dir, [], ["login.jmx"; "checkout.jmx"; "notes.txt"])]
       else if String.eqb dir "TestSteps_Output"
       then [(dir, [], ["TestSteps.txt"; "extra.log"])]
       else [] |}.

(** A file system with neither output directory. *)
Definition fs_empty : FS :=
  {| path_exists := fun _ => false; getsize := fun _ => 0%nat; walk := fun _ => [] |}.

(** A validator that classifies every script [cls]. *)
Definition validator_saying (cls : string) : Validator :=
  {| validate_jmx_file := fun _ => inr {[ "overall_status" := cls ]};
     generate_validation_report := fun _ _ => None |}.

(** Every stage process exits with code 0 and leaves the file system [f];
    every module is loaded. *)
Definition env_with (v : option Validator) (f : FS) : Env :=
  {| network_logger_module := true;
     test_steps_module := true;
     jmx_generator_module := true;
     validation_module := true;
     make_validator := v;
     spawn := fun _ _ _ => (Exited 0 EmptyString EmptyString, f);
     makedirs := fun _ cur => inr cur;
     getcwd := "/srv/app";
     now := fun n => "20250101_00000" +:+ of_nat n;
     MODULE_ERRORS := [];
     uuid4 := fun n => "0f8fad5b-d9cb-469f-a165-70867728950" +:+ of_nat n |}.

(** As [env_with], but the traffic capture [log.py] exits with code 1. *)
Definition env_capture_fails (v : option Validator) (f : FS) : Env :=
  {| network_logger_module := true;
     test_steps_module := true;
     jmx_generator_module := true;
     validation_module := true;
     make_validator := v;
     spawn := fun script _ _ =>
       if String.eqb script "log.py" then (Exited 1 EmptyString "no browser", f)
       else (Exited 0 EmptyString EmptyString, f);
     makedirs := fun _ cur => inr cur;
     getcwd := "/srv/app";
     now := fun n => "20250101_00000" +:+ of_nat n;
     MODULE_ERRORS := [];
     uuid4 := fun n => "0f8fad5b-d9cb-469f-a165-70867728950" +:+ of_nat n |}.

(** As [env_with], but [TestSteps.py] failed to import. *)
Definition env_module_missing (v : option Validator) (f : FS) : Env :=
  {| network_logger_module := true;
     test_steps_module := false;
     jmx_generator_module := true;
     validation_module := true;
     make_validator := v;
     spawn := fun _ _ _ => (Exited 0 EmptyString EmptyString, f);
     makedirs := fun _ cur => inr cur;
     getcwd := "/srv/app";
     now := fun n => "20250101_00000" +:+ of_nat n;
     MODULE_ERRORS := ["TestSteps.py: No module named 'TestSteps'"];
     uuid4 := fun n => "0f8fad5b-d9cb-469f-a165-70867728950" +:+ of_nat n |}.

Definition world_with (f : FS) : World :=
  {| log_py := {| content := Some "import os"; writable := true |};
     fs := f; launched := []; validated := []; reported := [] |}.

(** A run up to the validation: every stage process has succeeded and
    script generation has left two scripts. *)
Definition before_validation_in (env : Env) : State :=
  ((Machine.write (set_wf_status WRunning);;
    Sequencer.stage_analysis;;
    Sequencer.stage_network env;;
    Sequencer.stage_test_steps env;;
    Sequencer.stage_jmx env)
     (start env "wf-1" story_with_url (world_with fs_two_scripts))).1.

(** Scenario A: the validator classifies every script pass. *)
Definition scenario_A_env : Env :=
  env_with (Some (validator_saying "pass")) fs_two_scripts.

Definition before_validation : State := before_validation_in scenario_A_env.

(** A validator that classifies every script pass and cannot write its
    report. *)
Definition validator_report_fails : Validator :=
  {| validate_jmx_file := fun _ => inr {[ "overall_status" := "pass" ]};
     generate_validation_report := fun _ _ => Some "[Errno 28] No space left on device" |}.

Definition report_fails_env : Env :=
  env_with (Some validator_report_fails) fs_two_scripts.

Definition two_scripts : list string :=
  ["JMX_SCRIPT_OUTPUT/login.jmx"; "JMX_SCRIPT_OUTPUT/checkout.jmx"].

(** A story that holds the delimiter of the task block. *)
Definition story_with_delimiter : string :=
  "Type " +:+ TaskPattern.triple_quote +:+ "hi" +:+ TaskPattern.triple_quote +:+
  " at https://example.com".

Definition file_with_import : TextFile :=
  {| content := Some ("import os" +:+ TaskPattern.nl +:+ "x = 1"); writable := true |}.

(** A resource with an opening of a task block that is never closed. *)
Definition file_with_open_block : TextFile :=
  {| content := Some ("TASK = " +:+ TaskPattern.triple_quote +:+ TaskPattern.nl +:+ "import os");
     writable := true |}.

End Samples.

(** * Properties *)

Example findall_ex1 :
  UrlPattern.findall "Test login for https://example.com/a now http://b.c" =
  ["https://example.com/a"; "http://b.c"].
Proof. reflexivity. Qed.

Example findall_ex2 : UrlPattern.findall "see http:// and https://" = [].
Proof. reflexivity. Qed.

Example findall_ex3 : UrlPattern.findall "httpshttp://xhttps://y z" = ["http://xhttps://y"].
Proof. reflexivity. Qed.

(** ** Text lemmas *)

Section TextFacts.
Import Text.

Lemma append_assoc (a b c : string) : (a +:+ b) +:+ c = a +:+ b +:+ c.
Proof. induction a as [|x a IH]; simpl; [reflexivity | by rewrite IH]. Qed.

Lemma append_nil_r (a : string) : a +:+ EmptyString = a.
Proof. induction a as [|x a IH]; simpl; [reflexivity | by rewrite IH]. Qed.

Lemma length_append (a b : string) :
  String.length (a +:+ b) = (String.length a + String.length b)%nat.
Proof. induction a as [|x a IH]; simpl; [reflexivity | by rewrite IH]. Qed.

Lemma strip_prefix_Some (p s r : string) :
  strip_prefix p s = Some r <-> s = p +:+ r.
Proof.
  revert s; induction p as [|a p IH]; intros s; simpl.
  - split; [intros [= ->] | intros ->]; reflexivity.
  - destruct s as [|b s]; [split; discriminate|].
    destruct (Ascii.eqb_spec a b) as [->|Hne].
    + rewrite IH. split; [intros ->; reflexivity | intros [= ->]; reflexivity].
    + split; [discriminate | intros [= Hab _]; congruence].
Qed.

Lemma strip_prefix_app (p r : string) : strip_prefix p (p +:+ r) = Some r.
Proof. by apply strip_prefix_Some. Qed.

Lemma all_nonspace_nil : all_nonspace EmptyString.
Proof. intros c []. Qed.

Lemma all_nonspace_cons (c : ascii) (s : string) :
  all_nonspace (String c s) <-> is_space c = false /\ all_nonspace s.
Proof.
  unfold all_nonspace; simpl; split.
  - intros H; split; [apply H; by left | intros d Hd; apply H; by right].
  - intros [Hc Hs] d [<-|Hd]; [done | by apply Hs].
Qed.

Lemma span_nonspace_spec (s a b : string) :
  span_nonspace s = (a, b) ->
  s = a +:+ b /\ all_nonspace a /\
  match b with EmptyString => True | String c _ => is_space c = true end.
Proof.
  revert a b; induction s as [|c s IH]; intros a b; simpl.
  - intros [= <- <-]; repeat split. apply all_nonspace_nil.
  - destruct (is_space c) eqn:Hc.
    + intros [= <- <-]; repeat split; [apply all_nonspace_nil | done].
    + destruct (span_nonspace s) as [a' b'] eqn:Hs.
      intros [= <- <-]. destruct (IH a' b' eq_refl) as (-> & Ha & Hb).
      repeat split; [by apply all_nonspace_cons | done].
Qed.

(** The run found by [span_nonspace] is the longest one. *)
Lemma span_nonspace_longest (a b : string) :
  all_nonspace a ->
  (String.length a <= String.length (fst (span_nonspace (a +:+ b))))%nat.
Proof.
  induction a as [|c a IH]; simpl; intros Ha; [lia|].
  apply all_nonspace_cons in Ha as [Hc Ha]. rewrite Hc.
  specialize (IH Ha). destruct (span_nonspace (a +:+ b)); simpl in *; lia.
Qed.

End TextFacts.

(** ** The URL pattern finds the first URL-shaped substring *)

Section UrlPatternFacts.
Import Text UrlPattern.

Lemma url_scheme_at_Some (s sch r : string) :
  url_scheme_at s = Some (sch, r) <->
  (sch = "http://" \/ sch = "https://") /\ s = sch +:+ r.
Proof.
  split.
  - unfold url_scheme_at.
    destruct (strip_prefix "http" s) as [r0|] eqn:H0; [|discriminate].
    apply strip_prefix_Some in H0 as ->.
    assert (match strip_prefix "://" r0 with
            | Some r'' => Some ("http://", r'')
            | None => None
            end = Some (sch, r) ->
            (sch = "http://" \/ sch = "https://") /\
            "http" +:+ r0 = sch +:+ r) as Hw.
    { destruct (strip_prefix "://" r0) as [r3|] eqn:H3; [|discriminate].
      apply strip_prefix_Some in H3 as ->. intros [= <- <-]. auto. }
    destruct (strip_prefix "s" r0) as [r1|] eqn:H1; [|exact Hw].
    destruct (strip_prefix "://" r1) as [r2|] eqn:H2; [|exact Hw].
    apply strip_prefix_Some in H1 as ->. apply strip_prefix_Some in H2 as ->.
    intros [= <- <-]. auto.
  - intros [[-> | ->] ->]; reflexivity.
Qed.

Lemma url_scheme_at_None (s : string) :
  url_scheme_at s = None ->
  forall sch r, sch = "http://" \/ sch = "https://" -> s <> sch +:+ r.
Proof.
  intros Hn sch r Hsch ->.
  assert (url_scheme_at (sch +:+ r) = Some (sch, r)) as E
    by (by apply url_scheme_at_Some).
  congruence.
Qed.

Lemma match_url_at_Some (s m r : string) :
  match_url_at s = Some (m, r) ->
  s = m +:+ r /\ url_shaped m /\
  (forall u post, s = u +:+ post -> url_shaped u ->
     (String.length u <= String.length m)%nat).
Proof.
  unfold match_url_at.
  destruct (url_scheme_at s) as [[sch r1]|] eqn:Hs; [|discriminate].
  apply url_scheme_at_Some in Hs as [Hsch ->].
  destruct (span_nonspace r1) as [body rest] eqn:Hb.
  destruct body as [|c body]; [discriminate|]. intros [= <- <-].
  destruct (span_nonspace_spec _ _ _ Hb) as (-> & Hns & _).
  split; [by rewrite append_assoc|]. split.
  - exists sch, (String c body). done.
  - intros u post Hu (sch' & body' & Hsch' & -> & _ & Hns').
    rewrite append_assoc in Hu.
    assert (sch' = sch /\ body' +:+ post = String c body +:+ rest) as [-> Hr].
    { destruct Hsch as [-> | ->], Hsch' as [-> | ->]; simpl in Hu;
        by inversion Hu. }
    rewrite !length_append.
    pose proof (span_nonspace_longest body' post Hns') as Hl.
    rewrite Hr, Hb in Hl. simpl in *. lia.
Qed.

Lemma match_url_at_None (s : string) :
  match_url_at s = None ->
  forall u post, s = u +:+ post -> ~ url_shaped u.
Proof.
  unfold match_url_at. intros Hn u post -> (sch & body & Hsch & -> & Hne & Hns).
  rewrite append_assoc in Hn.
  assert (url_scheme_at (sch +:+ body +:+ post) = Some (sch, body +:+ post)) as E
    by (by apply url_scheme_at_Some).
  rewrite E in Hn.
  pose proof (span_nonspace_longest body post Hns) as Hl.
  destruct (span_nonspace (body +:+ post)) as [[|c b] rest]; [|discriminate].
  destruct body; [done | simpl in Hl; lia].
Qed.

(** What the head of [findall] is. *)
Lemma findall_head (s : string) :
  match findall s with
  | u :: _ => exists pre post, first_url s pre u post
  | [] => ~ has_url s
  end.
Proof.
  unfold findall. induction s as [|c s IH].
  - simpl. intros (pre & u & post & Heq & sch & body & Hsch & -> & _).
    destruct pre; [|discriminate]. destruct Hsch as [-> | ->]; discriminate.
  - cbn [findall_from]. destruct (match_url_at (String c s)) as [[m r]|] eqn:Hm.
    + destruct (match_url_at_Some _ _ _ Hm) as (Heq & Hsh & Hlong).
      exists EmptyString, r. repeat split; [done | done | simpl; lia |].
      intros u' post' Hu'. simpl in Hu'. by apply (Hlong u' post').
    + pose proof (match_url_at_None _ Hm) as Hno.
      destruct (findall_from 0 s) as [|u us].
      * intros (pre & u & post & Heq & Hu).
        destruct pre as [|c' pre]; [by eapply (Hno u post)|].
        simpl in Heq. injection Heq as _ ->. apply IH. by exists pre, u, post.
      * destruct IH as (pre & post & -> & Hu & Hfirst & Hlong).
        exists (String c pre), post. repeat split; [done|..].
        -- intros pre' u' post' Heq Hu'.
           destruct pre' as [|c' pre']; [exfalso; by eapply (Hno u' post')|].
           simpl in Heq. injection Heq as _ Heq. simpl.
           specialize (Hfirst _ _ _ Heq Hu'). lia.
        -- intros u' post' Heq Hu'. simpl in Heq. injection Heq as Heq.
           by apply (Hlong u' post').
Qed.

End UrlPatternFacts.

Example template_ex1 :
  Template.parse_template (String TaskPattern.backslash "g<0>x") =
  Some [Template.Group0; Template.Lit "x"].
Proof. reflexivity. Qed.
Example template_ex2 :
  Template.parse_template (String TaskPattern.backslash "101b") =
  Some [Template.Lit "A"; Template.Lit "b"].
Proof. reflexivity. Qed.
Example template_ex3 :
  Template.parse_template (String TaskPattern.backslash "1b") = None.
Proof. reflexivity. Qed.
Example template_ex4 :
  Template.parse_template (String TaskPattern.backslash "n.") = Some [Template.Lit TaskPattern.nl; Template.Lit "."].
Proof. reflexivity. Qed.

Example writer_ex1 :
  Writer.update_task_in_log_file "Test https://a.b"
    {| Writer.content := Some ("import os" +:+ TaskPattern.nl +:+ "x = 1"); Writer.writable := true |} =
  ({| Writer.content := Some ("import os" +:+ TaskPattern.nl +:+ TaskPattern.nl +:+
        Writer.new_task "https://a.b" "Test https://a.b" +:+ TaskPattern.nl +:+ TaskPattern.nl +:+ "x = 1");
      Writer.writable := true |}, Some "https://a.b").
Proof. reflexivity. Qed.

(** ** Boolean checks are sound *)

Section Checks.
Import Model Machine Props.

Lemma forallb_not_running_lookup (l : list step_status) (i : nat) :
  forallb (fun s' => negb (is_running s')) l = true -> l !! i <> Some SRunning.
Proof.
  revert i; induction l as [|s l IH]; intros i H Hi; [by destruct i|].
  simpl in H. apply andb_true_iff in H as [Hs Hl].
  destruct i as [|i]; simpl in Hi.
  - injection Hi as ->. discriminate.
  - by apply (IH i).
Qed.

Lemma running_ok_sound (l : list step_status) :
  running_ok l = true -> at_most_one_running l /\ running_is_lowest l.
Proof.
  induction l as [|s l IH]; intros H.
  - split; intros i j Hi; by destruct i.
  - simpl in H. destruct (is_terminal s) eqn:Hs.
    + destruct (IH H) as [Hone Hlow]. split.
      * intros [|i] [|j] Hi Hj; simpl in Hi, Hj.
        -- reflexivity.
        -- injection Hi as ->. discriminate.
        -- injection Hj as ->. discriminate.
        -- f_equal. by apply Hone.
      * intros [|i] j Hi Hj; [lia|]. destruct j as [|j]; simpl in *.
        -- exists s. split; [done|]. destruct s; try discriminate; [by left | by right].
        -- apply (Hlow i j Hi). lia.
    + split.
      * intros [|i] [|j] Hi Hj; simpl in Hi, Hj; [reflexivity|..];
          exfalso; by eapply forallb_not_running_lookup.
      * intros [|i] j Hi Hj; [lia|]. simpl in Hi.
        exfalso; by eapply forallb_not_running_lookup.
Qed.

Lemma change_ok_sound env w0 i s s' :
  change_ok (unavailable env w0) i s s' = true -> change env w0 i s s'.
Proof.
  unfold change, strict_change, terminal.
  destruct s, s'; simpl; intros H; try discriminate; auto 10.
Qed.

Lemma change_ok_strict i s s' :
  strict_change s s' -> change_ok (fun _ => false) i s s' = true.
Proof.
  unfold strict_change, terminal.
  intros [-> | [[-> ->] | [-> [-> | ->]]]]; [by destruct s' | done..].
Qed.

Lemma changes_ok_lookup (R : nat -> step_status -> step_status -> Prop)
    (allow : nat -> bool) (l l' : list step_status) (i0 i : nat) s s' :
  (forall i s s', change_ok allow i s s' = true -> R i s s') ->
  changes_ok allow i0 l l' = true ->
  l !! i = Some s -> l' !! i = Some s' -> R (i0 + i)%nat s s'.
Proof.
  intros HR. revert l' i0 i; induction l as [|a l IH]; intros [|a' l'] i0 i H Hi Hi';
    try (by destruct i).
  simpl in H. apply andb_true_iff in H as [Ha Hl].
  destruct i as [|i]; simpl in Hi, Hi'.
  - injection Hi as ->. injection Hi' as ->. rewrite Nat.add_0_r. by apply HR.
  - replace (i0 + S i)%nat with (S i0 + i)%nat by lia. by eapply IH.
Qed.

Lemma changes_ok_complete (l l' : list step_status) (i0 : nat) :
  (forall i s s', l !! i = Some s -> l' !! i = Some s' -> strict_change s s') ->
  changes_ok (fun _ => false) i0 l l' = true.
Proof.
  revert l' i0; induction l as [|a l IH]; intros [|a' l'] i0 H; try done.
  simpl. apply andb_true_iff. split.
  - apply change_ok_strict. by apply (H 0%nat).
  - apply IH. intros i s s' Hi Hi'. by apply (H (S i)).
Qed.

Lemma changes_trace_ok_sound (R : nat -> step_status -> step_status -> Prop)
    (allow : nat -> bool) (tr : list Workflow) :
  (forall i s s', change_ok allow i s s' = true -> R i s s') ->
  changes_trace_ok allow (map statuses tr) = true -> stepwise R tr.
Proof.
  intros HR. induction tr as [|w tr IH]; intros H.
  - intros n ? ? ? ? ? Hn; by destruct n.
  - destruct tr as [|w' tr'].
    + intros n ? ? ? ? ? Hn Hn'. by destruct n.
    + cbn [map changes_trace_ok] in H. apply andb_true_iff in H as [Hch Hrest].
      intros [|n] w1 w1' i s s' Hn Hn' Hs Hs'; simpl in Hn, Hn'.
      * injection Hn as <-. injection Hn' as <-.
        by apply (changes_ok_lookup R allow (statuses w) (statuses w') 0 i).
      * by eapply (IH Hrest n).
Qed.

Lemma changes_trace_ok_complete (tr : list Workflow) :
  stepwise (fun _ => strict_change) tr ->
  changes_trace_ok (fun _ => false) (map statuses tr) = true.
Proof.
  induction tr as [|w tr IH]; intros H; [done|].
  destruct tr as [|w' tr']; [done|].
  cbn [map changes_trace_ok]. apply andb_true_iff. split.
  - apply changes_ok_complete. intros i s s'. by apply (H 0%nat w w').
  - apply IH. intros n w1 w1' i s s' Hn Hn'. by apply (H (S n) w1 w1').
Qed.

Lemma runs_ok_sound (tr : list Workflow) :
  forallb running_ok (map statuses tr) = true ->
  forall w, w ∈ tr -> at_most_one_running (statuses w) /\ running_is_lowest (statuses w).
Proof.
  rewrite forallb_forall. intros H w Hw. apply running_ok_sound, H.
  apply in_map, list_elem_of_In, Hw.
Qed.

Lemma find_failed_first (l : list step_status) (i0 k : nat) :
  first_failed l k -> find_failed i0 l = Some (i0 + k)%nat.
Proof.
  revert i0 k; induction l as [|s l IH]; intros i0 k [Hk Hfirst]; [by destruct k|].
  destruct k as [|k]; simpl in Hk.
  - injection Hk as ->. simpl. f_equal. lia.
  - assert (s <> SFailed) as Hs.
    { intros ->. by apply (Hfirst 0%nat); [lia|]. }
    assert (find_failed i0 (s :: l) = find_failed (S i0) l) as -> by (by destruct s).
    rewrite (IH (S i0) k); [f_equal; lia|]. split; [done|].
    intros j Hj. apply (Hfirst (S j)). lia.
Qed.

Lemma fail_fast_ok_sound (w : Workflow) (k : nat) :
  fail_fast_ok w = true -> first_failed (statuses w) k ->
  wf_status w = WFailed /\
  (forall j, (k < j)%nat -> (j < length (steps w))%nat ->
     statuses w !! j = Some SPending) /\
  (forall key, is_Some (results w !! key) ->
     exists j, recorded_by key = Some j /\ (j <= k)%nat).
Proof.
  intros H Hk. unfold fail_fast_ok in H.
  rewrite (find_failed_first _ 0 k Hk) in H. simpl in H.
  apply andb_true_iff in H as [H Hres]. apply andb_true_iff in H as [Hst Hlater].
  split; [by apply bool_decide_eq_true in Hst|]. split.
  - intros j Hkj Hj. rewrite forallb_forall in Hlater.
    destruct (statuses w !! j) as [s|] eqn:Hs.
    + f_equal. apply (bool_decide_eq_true_1 (s = SPending)), Hlater.
      apply list_elem_of_In, list_elem_of_lookup. exists (j - S k)%nat.
      rewrite lookup_drop. rewrite <- Hs. f_equal. lia.
    + apply lookup_ge_None in Hs. unfold statuses in Hs. rewrite length_map in Hs. lia.
  - intros key [v Hv]. rewrite forallb_forall in Hres.
    specialize (Hres key). destruct (recorded_by key) as [j|].
    + exists j. split; [done|]. apply Nat.leb_le, Hres.
      apply in_map_iff. exists (key, v). split; [done|].
      apply list_elem_of_In. by apply elem_of_map_to_list.
    + exfalso. enough (false = true) by discriminate. apply Hres.
      apply in_map_iff. exists (key, v). split; [done|].
      apply list_elem_of_In. by apply elem_of_map_to_list.
Qed.

End Checks.

(** ** Running the sequencer symbolically *)

Section Execution.
Import Text UrlPattern TaskPattern Writer Runner Model Machine Scan Sequencer Props.

(** The validation loop writes nothing to the workflow object. *)
Lemma validate_all_frame env v files acc st :
  wf (validate_all env v files acc st).1 = wf st /\
  history (validate_all env v files acc st).1 = history st.
Proof.
  revert acc st; induction files as [|f files IH]; intros acc st; [done|].
  cbn [validate_all]. unfold mbind, M_bind, write_world, read_world, raise.
  destruct (validate_jmx_file v f) as [e|res]; [done|]. cbn [fst snd].
  destruct (generate_validation_report v res _) as [e|]; [done|].
  match goal with
  | |- context [validate_all env v files ?a ?s] => destruct (IH a s) as [H1 H2]
  end.
  cbn [world wf history] in *. split; [exact H1 | exact H2].
Qed.

End Execution.

(** Unfolds the machine and the stages, and nothing of the oracles, the
    messages or the scans. *)
Ltac run :=
  cbv beta iota zeta delta
   [mbind Machine.M_bind mret Machine.M_ret Machine.write Machine.push Machine.read
    Machine.read_world Machine.write_world Machine.when Machine.return_ Machine.raise
    Machine.try_except Machine.update_step_status Machine.step_writes Model.in_range
    Model.set_wf_status Model.set_current_step Model.set_steps Model.set_result
    Model.set_target_url Model.set_step_status Model.set_step_message
    Machine.wf Machine.world Machine.history Model.steps length Z.of_nat
    Pos.of_succ_nat Pos.succ Z.leb Z.ltb Z.compare Pos.compare Pos.compare_cont
    andb negb Z.to_nat Pos.to_nat Pos.iter_op Nat.add alter list_alter fst snd
    Model.workflow_id Model.user_story Model.wf_status Model.current_step
    Model.results Model.target_url Model.validator
    Model.name Model.status Model.message Model.new_workflow Model.initial_steps
    Props.start Model.log_py Model.fs Model.launched Model.validated Model.reported
    Model.network_logger_module Model.test_steps_module Model.jmx_generator_module
    Model.validation_module Model.make_validator Model.spawn Model.makedirs
    Model.getcwd Model.now
    Machine.update_task Machine.run_script_with_timeout Machine.os_makedirs
    Scan.read_actual_files Scan.actual_files_var
    Sequencer.execute_workflow Sequencer.stage_analysis Sequencer.stage_network
    Sequencer.stage_test_steps Sequencer.stage_jmx Sequencer.stage_validation].

(** The validation loop leaves a state with the same workflow object. *)
Ltac frame_validate :=
  match goal with
  | |- context [Scan.validate_all ?e ?v ?fs ?acc ?st] =>
      let H1 := fresh "Hwf" in
      let H2 := fresh "Hhist" in
      let wf' := fresh "wf'" in
      let world' := fresh "world'" in
      let hist' := fresh "hist'" in
      let fl := fresh "fl" in
      destruct (validate_all_frame e v fs acc st) as [H1 H2];
      destruct (Scan.validate_all e v fs acc st) as [[wf' world' hist'] fl] eqn:?;
      cbn [fst Machine.wf Machine.history] in H1, H2; subst wf' hist'
  end.

(** Case analysis on the oracle answer the run is waiting for. *)
Ltac branch :=
  first
    [ frame_validate
    | match goal with
      | |- context [match ?x with _ => _ end] =>
          lazymatch x with
          | context [match _ with _ => _ end] => fail
          | _ => first [is_var x; destruct x | destruct x eqn:?]
          end
      end ].

(** Every path of [execute_workflow] from a fresh workflow. *)
Ltac all_paths env w0 :=
  unfold Props.start, Model.new_workflow;
  generalize (if Model.MODULES_AVAILABLE env && Model.validation_module env
              then Model.make_validator env else None);
  let v0 := fresh "v0" in
  intros v0; destruct env, w0; run; repeat (branch; run).

(** ** C3: the target URL is the first URL of the story *)

Section TargetUrl.
Import Text UrlPattern Model Machine Sequencer Props.

Lemma execute_target_url env id story w0 :
  target_url (wf (execute_workflow env (start env id story w0))) =
  Some (first_url_or_default story).
Proof. all_paths env w0; reflexivity. Qed.



End TargetUrl.

(** ** C1: fail-fast sequencing *)

Section FailFast.
Import Model Machine Sequencer Props.

Lemma execute_fail_fast_ok env id story w0 :
  fail_fast_ok (wf (execute_workflow env (start env id story w0))) = true.
Proof. all_paths env w0; vm_compute; reflexivity. Qed.

(** C1. For every run of [execute_workflow] on a fresh workflow, if the
    step at index [k] is the first failed step, the workflow status is
    failed, every step after [k] is still pending, and [results] holds no
    entry recorded by a stage after stage [k]. *)
Theorem fail_fast_sequencing env id story w0 k :
  let w := wf (execute_workflow env (start env id story w0)) in
  first_failed (statuses w) k ->
  wf_status w = WFailed /\
  (forall j, (k < j)%nat -> (j < length (steps w))%nat ->
     statuses w !! j = Some SPending) /\
  (forall key, is_Some (results w !! key) ->
     exists j, recorded_by key = Some j /\ (j <= k)%nat).
Proof.
  intros w Hk. apply fail_fast_ok_sound; [apply execute_fail_fast_ok | exact Hk].
Qed.

(** Scenario C: the traffic capture exits with code 1. *)
Lemma fail_fast_sequencing_witness :
  let w := wf (execute_workflow
                 (Samples.env_capture_fails (Some (Samples.validator_saying "pass"))
                                            Samples.fs_two_scripts)
                 (start (Samples.env_capture_fails (Some (Samples.validator_saying "pass"))
                                                   Samples.fs_two_scripts)
                        "wf-1" Samples.story_with_url
                        (Samples.world_with Samples.fs_two_scripts))) in
  first_failed (statuses w) 1 /\
  wf_status w = WFailed /\
  (forall j, (1 < j)%nat -> (j < length (steps w))%nat ->
     statuses w !! j = Some SPending) /\
  (forall key, is_Some (results w !! key) ->
     exists j, recorded_by key = Some j /\ (j <= 1)%nat).
Proof.
  assert (first_failed
            (statuses (wf (execute_workflow
               (Samples.env_capture_fails (Some (Samples.validator_saying "pass"))
                                          Samples.fs_two_scripts)
               (start (Samples.env_capture_fails (Some (Samples.validator_saying "pass"))
                                                 Samples.fs_two_scripts)
                      "wf-1" Samples.story_with_url
                      (Samples.world_with Samples.fs_two_scripts))))) 1) as H.
  { split; [vm_compute; reflexivity|].
    intros [|j] Hj; [vm_compute; discriminate | lia]. }
  split; [exact H|].
  exact (fail_fast_sequencing _ "wf-1" Samples.story_with_url _ 1%nat H).
Defined.

End FailFast.

(** ** C2: the step status machine *)

Section StatusMachine.
Import Model Machine Sequencer Props.

Lemma execute_trace_ok env id story w0 :
  trace_ok (unavailable env (new_workflow env id story))
    (map statuses (trace (execute_workflow env (start env id story w0)))) = true.
Proof. all_paths env w0; vm_compute; reflexivity. Qed.



End StatusMachine.

(** ** C10: an update out of range changes nothing *)

Section OutOfRange.
Import Model Machine Props.

(** C10. For every state and every index that is negative or not below the
    number of steps, [update_step_status] raises nothing and leaves the
    workflow unchanged: no step, not the current step index, and no entry
    of the history is written. *)
Theorem update_step_status_out_of_range (st : State) (i : Z) (s : step_status) (msg : string) :
  (i < 0 \/ Z.of_nat (length (steps (wf st))) <= i)%Z ->
  update_step_status i s msg st = (st, Normal tt).
Proof.
  intros Hi. unfold update_step_status, in_range.
  destruct (0 <=? i)%Z eqn:H0; [|reflexivity].
  destruct (i <? Z.of_nat (length (steps (wf st))))%Z eqn:H1; [|reflexivity].
  apply Z.leb_le in H0. apply Z.ltb_lt in H1. lia.
Qed.

Lemma update_step_status_out_of_range_witness :
  update_step_status 5 SFailed "late"
    (start (Samples.env_with None Samples.fs_empty) "wf-1" Samples.story_with_url
           (Samples.world_with Samples.fs_empty)) =
  (start (Samples.env_with None Samples.fs_empty) "wf-1" Samples.story_with_url
         (Samples.world_with Samples.fs_empty), Normal tt) /\
  update_step_status (-1) SRunning "early"
    (start (Samples.env_with None Samples.fs_empty) "wf-1" Samples.story_with_url
           (Samples.world_with Samples.fs_empty)) =
  (start (Samples.env_with None Samples.fs_empty) "wf-1" Samples.story_with_url
         (Samples.world_with Samples.fs_empty), Normal tt).
Proof.
  split.
  - apply (update_step_status_out_of_range _ 5 SFailed "late"). right. simpl. lia.
  - apply (update_step_status_out_of_range _ (-1) SRunning "early"). left. lia.
Defined.

End OutOfRange.

(** ** C5: the result contract of the Process Runner *)

Section ProcessRunner.
Import Text Runner Model Machine.


End ProcessRunner.

(** Opens a state with five steps into its fields. *)
Ltac open_state st H5 :=
  let w := fresh "w" in
  let wo := fresh "world" in
  let h := fresh "hist" in
  destruct st as [w wo h]; destruct w as [? ? ? ? stps ? ? ?]; destruct wo;
  unfold Props.five_steps in H5; cbn [Machine.wf Model.steps] in H5;
  destruct stps as [|? [|? [|? [|? [|? [|? ?]]]]]]; try discriminate H5; clear H5.

(** ** C9: the artifact scan after the step derivation is total *)

Section ArtifactScan.
Import Text Writer Runner Model Machine Scan Sequencer Props.



(** The read of [actual_files] is safe because both tests of the directory
    see the same state: were the directory to appear between them, the
    variable would be read unbound. *)
Lemma read_actual_files_unbound f1 f2 st :
  path_exists f1 "TestSteps_Output" = false ->
  path_exists f2 "TestSteps_Output" = true ->
  (read_actual_files f2 (actual_files_var f1) st).2 =
  Raised "name 'actual_files' is not defined".
Proof.
  intros H1 H2. unfold read_actual_files, actual_files_var. by rewrite H1, H2.
Qed.

End ArtifactScan.

(** ** C8: no script, no validation *)

Section EmptyArtifacts.
Import Text Writer Runner Model Machine Scan Sequencer Props.

(** C8. When the script-generation process succeeds and the scan of its
    output directory finds no script, the validation step is failed, the
    workflow status is failed, and the validator is never called. *)
Theorem empty_artifacts_fail_validation env st out err f0 f :
  five_steps st ->
  jmx_generator_module env = true ->
  makedirs env "JMX_SCRIPT_OUTPUT" (fs (world st)) = inr f0 ->
  spawn env "PTScript.py" 180 f0 = (Exited 0 out err, f) ->
  jmx_files_of f = [] ->
  let r := (stage_jmx env;; stage_validation env) st in
  r.2 = Returned /\
  statuses (wf r.1) !! 3%nat = Some SCompleted /\
  statuses (wf r.1) !! 4%nat = Some SFailed /\
  wf_status (wf r.1) = WFailed /\
  validated (world r.1) = validated (world st) /\
  reported (world r.1) = reported (world st).
Proof.
  intros H5 Hmod Hmk Hrun Hjmx. open_state st H5. destruct env.
  cbn [jmx_generator_module makedirs spawn world Model.fs Model.validated Model.reported] in *. subst.
  cbv zeta. run. rewrite Hmk. run. rewrite Hrun. run.
  change (success (stage_result_of 180 (Exited 0 out err))) with true. run.
  destruct validation_module0; run.
  2: { repeat split; reflexivity. }
  destruct validator0 as [v|]; run.
  2: { repeat split; reflexivity. }
  unfold get_jmx_files. cbn [results]. rewrite lookup_insert_eq, Hjmx.
  run. repeat split; reflexivity.
Qed.

Lemma empty_artifacts_fail_validation_witness :
  let env := Samples.env_with (Some (Samples.validator_saying "pass")) Samples.fs_empty in
  let st := start env "wf-1" Samples.story_with_url (Samples.world_with Samples.fs_empty) in
  let r := (stage_jmx env;; stage_validation env) st in
  r.2 = Returned /\
  statuses (wf r.1) !! 3%nat = Some SCompleted /\
  statuses (wf r.1) !! 4%nat = Some SFailed /\
  wf_status (wf r.1) = WFailed /\
  validated (world r.1) = validated (world st) /\
  reported (world r.1) = reported (world st).
Proof.
  exact (empty_artifacts_fail_validation
           (Samples.env_with (Some (Samples.validator_saying "pass")) Samples.fs_empty)
           (start (Samples.env_with (Some (Samples.validator_saying "pass")) Samples.fs_empty)
                  "wf-1" Samples.story_with_url (Samples.world_with Samples.fs_empty))
           EmptyString EmptyString Samples.fs_empty Samples.fs_empty
           eq_refl eq_refl eq_refl eq_refl eq_refl).
Defined.

End EmptyArtifacts.

(** ** C7: the validation tally *)

Section ValidationTally.
Import Text Writer Runner Model Machine Scan Sequencer Props.

Lemma validate_all_returns env v files acc st :
  (forall f, f ∈ files -> check_returns v f) ->
  exists world',
    validate_all env v files acc st =
    ({| wf := wf st; world := world'; history := history st |},
     Normal (acc ++ map (fun f => (f, the_report v f)) files)) /\
    validated world' = validated (world st) ++ files.
Proof.
  revert acc st; induction files as [|f files IH]; intros acc st Hall.
  - exists (world st). simpl. rewrite !app_nil_r. by destruct st.
  - destruct (Hall f) as (r & Hr & Hrep); [by left|].
    cbn [validate_all]. unfold mbind, M_bind, write_world, read_world, raise.
    rewrite Hr. cbn [fst snd]. rewrite Hrep.
    match goal with
    | |- context [validate_all env v files ?a ?s] =>
        destruct (IH a s) as (world' & -> & Hv)
    end; [intros g Hg; apply Hall; by right|].
    exists world'. cbn [wf history world] in *. split.
    + do 2 f_equal. rewrite <- app_assoc. f_equal. simpl. unfold the_report. by rewrite Hr.
    + rewrite Hv. unfold log_reported, log_validated. cbn [validated]. by rewrite <- app_assoc.
Qed.

Lemma tally_count v cls files :
  (forall f, f ∈ files -> check_returns v f) ->
  tally cls (map (fun f => (f, the_report v f)) files) = count_classified v cls files.
Proof.
  unfold tally, count_classified. induction files as [|f files IH]; intros Hall; [done|].
  destruct (Hall f) as (r & Hr & _); [by left|].
  simpl.
  assert (bool_decide (the_report v f !! "overall_status" = Some cls) =
          bool_decide (classification v f = Some cls)) as ->.
  { apply bool_decide_ext. unfold classification, the_report. by rewrite Hr. }
  destruct (bool_decide (classification v f = Some cls)); simpl;
    rewrite IH; try done; intros g Hg; apply Hall; by right.
Qed.

(** C7, as the program has it. For a non-empty list of scripts whose checks
    all return and whose reports are all written, the validation step is
    completed with a message reporting passed, warnings and failed as the
    numbers of scripts the validator classifies pass, warning and fail, the
    raw results are stored, and the workflow status is completed. *)
Theorem validation_tally env st v files :
  five_steps st ->
  validation_module env = true ->
  validator (wf st) = Some v ->
  results (wf st) !! "jmx_files" = Some (PFiles files) ->
  files <> [] ->
  (forall f, f ∈ files -> check_returns v f) ->
  let r := stage_validation env st in
  let passed := count_classified v "pass" files in
  let warnings := count_classified v "warning" files in
  let failed := count_classified v "fail" files in
  r.2 = Normal tt /\
  statuses (wf r.1) !! 4%nat = Some SCompleted /\
  message <$> steps (wf r.1) !! 4%nat = Some (validation_message passed warnings failed) /\
  results (wf r.1) !! "validation" =
    Some (PValidation (map (fun f => (f, the_report v f)) files)) /\
  wf_status (wf r.1) = WCompleted /\
  validated (world r.1) = validated (world st) ++ files.
Proof.
  intros H5 Hmod Hv Hfiles Hne Hall. open_state st H5. destruct env.
  cbn [validation_module wf validator results world validated] in *. subst.
  cbv zeta. run. unfold get_jmx_files. cbn [results]. rewrite Hfiles.
  rewrite bool_decide_eq_false_2 by done. run.
  match goal with
  | |- context [validate_all ?e v files [] ?s] =>
      destruct (validate_all_returns e v files [] s Hall) as (world' & -> & Hval)
  end.
  run. cbn [app]. rewrite !tally_count by done.
  split; [reflexivity|]. split; [reflexivity|]. split; [reflexivity|].
  split; [by simplify_map_eq|]. split; [reflexivity|]. exact Hval.
Qed.

(** Two scripts, both classified pass, and a report that cannot be written:
    the validation step fails and no tally is reported. *)
Lemma validation_tally_counterexample :
  ~ tally_claim Samples.report_fails_env
      (Samples.before_validation_in Samples.report_fails_env)
      Samples.validator_report_fails Samples.two_scripts.
Proof.
  intros H.
  assert (wf_status (wf (stage_validation Samples.report_fails_env
            (Samples.before_validation_in Samples.report_fails_env)).1) = WCompleted) as Hc.
  { apply H; try reflexivity; [discriminate|].
    intros f _. eexists _, "pass". split; reflexivity. }
  vm_compute in Hc. discriminate.
Qed.

(** Scenario A: two scripts, both classified pass. *)
Lemma validation_tally_witness :
  let r := stage_validation Samples.scenario_A_env Samples.before_validation in
  r.2 = Normal tt /\
  statuses (wf r.1) !! 4%nat = Some SCompleted /\
  message <$> steps (wf r.1) !! 4%nat = Some (validation_message 2 0 0) /\
  results (wf r.1) !! "validation" =
    Some (PValidation (map (fun f => (f, the_report (Samples.validator_saying "pass") f))
                           Samples.two_scripts)) /\
  wf_status (wf r.1) = WCompleted /\
  validated (world r.1) = validated (world Samples.before_validation) ++ Samples.two_scripts.
Proof.
  refine (validation_tally Samples.scenario_A_env Samples.before_validation
            (Samples.validator_saying "pass") Samples.two_scripts
            eq_refl eq_refl eq_refl _ _ _).
  - vm_compute. reflexivity.
  - discriminate.
  - intros f _. eexists. split; [reflexivity | intros path; reflexivity].
Defined.

(** Scenario A from the start: the whole run ends completed, with the
    tally 2, 0, 0 in the message of the validation step. *)
Example scenario_A_run :
  let st := execute_workflow Samples.scenario_A_env
              (start Samples.scenario_A_env "wf-1" Samples.story_with_url
                     (Samples.world_with Samples.fs_two_scripts)) in
  wf_status (wf st) = WCompleted /\
  statuses (wf st) = [SCompleted; SCompleted; SCompleted; SCompleted; SCompleted] /\
  message <$> steps (wf st) !! 4%nat = Some (validation_message 2 0 0) /\
  validated (world st) = Samples.two_scripts.
Proof. vm_compute. repeat split; reflexivity. Qed.

End ValidationTally.

(** ** C4: the writer is idempotent on well-behaved stories *)

Import Text UrlPattern TaskPattern Template Writer Block.

Section TaskPatternFacts.

Lemma app_eq_split (a b c d : string) :
  a +:+ b = c +:+ d ->
  (exists e, a = c +:+ e /\ d = e +:+ b) \/
  (exists x e, c = a +:+ String x e /\ b = String x e +:+ d).
Proof.
  revert c; induction a as [|x a IH]; intros c H.
  - simpl in H. destruct c as [|y c].
    + left. exists EmptyString. simpl in *. auto.
    + right. exists y, c. simpl in *. auto.
  - destruct c as [|y c].
    + left. exists (String x a). simpl in *. auto.
    + simpl in H. injection H as -> H. destruct (IH c H) as [(e & -> & ->) | (z & e & -> & ->)].
      * left. by exists e.
      * right. by exists z, e.
Qed.

(** *** The closing delimiter *)

Lemma utq_Some s m r :
  until_triple_quote s = Some (m, r) -> s = m +:+ r /\ exists b, m = b +:+ triple_quote.
Proof.
  revert m r; induction s as [|c s IH]; intros m r; [discriminate|].
  cbn [until_triple_quote].
  destruct (strip_prefix triple_quote (String c s)) as [r0|] eqn:Hp.
  - intros [= <- <-]. apply strip_prefix_Some in Hp. split; [done|]. by exists EmptyString.
  - destruct (until_triple_quote s) as [[m' r']|]; [|discriminate].
    intros [= <- <-]. destruct (IH m' r' eq_refl) as (-> & b & ->). split; [done|].
    by exists (String c b).
Qed.

Lemma utq_None_app a b :
  until_triple_quote (a +:+ b) = None ->
  until_triple_quote a = None /\ until_triple_quote b = None.
Proof.
  induction a as [|c a IH]; [by destruct b|].
  cbn [String.append until_triple_quote].
  destruct (strip_prefix triple_quote (String c (a +:+ b))) as [r0|] eqn:Hp; [discriminate|].
  destruct (until_triple_quote (a +:+ b)) as [[m r]|] eqn:Hu; [discriminate|].
  intros _. destruct (IH eq_refl) as [Ha Hb]. split; [|done].
  destruct (strip_prefix triple_quote (String c a)) as [r1|] eqn:Hp1.
  - apply strip_prefix_Some in Hp1. change (String c (a +:+ b)) with (String c a +:+ b) in Hp.
    rewrite Hp1, append_assoc in Hp. by rewrite strip_prefix_app in Hp.
  - by rewrite Ha.
Qed.

Lemma utq_app_tq b r : until_triple_quote (b +:+ triple_quote +:+ r) <> None.
Proof.
  induction b as [|c b IH]; [done|].
  cbn [String.append until_triple_quote].
  destruct (strip_prefix _ _); [done|].
  by destruct (until_triple_quote (b +:+ triple_quote +:+ r)) as [[? ?]|].
Qed.

(** *** The opening *)

Lemma all_space_cons c s : all_space (String c s) <-> is_space c = true /\ all_space s.
Proof.
  unfold all_space; simpl; split.
  - intros H; split; [apply H; by left | intros d Hd; apply H; by right].
  - intros [Hc Hs] d [<-|Hd]; [done | by apply Hs].
Qed.

Lemma span_space_spec s a b :
  span_space s = (a, b) -> s = a +:+ b /\ all_space a.
Proof.
  revert a b; induction s as [|c s IH]; intros a b; simpl.
  - intros [= <- <-]. split; [done | intros c []].
  - destruct (is_space c) eqn:Hc.
    + destruct (span_space s) as [a' b'] eqn:Hs. intros [= <- <-].
      destruct (IH a' b' eq_refl) as [-> Ha]. split; [done | by apply all_space_cons].
    + intros [= <- <-]. split; [done | intros d []].
Qed.

Lemma span_space_app w c r :
  all_space w -> is_space c = false -> span_space (w +:+ String c r) = (w, String c r).
Proof.
  intros Hw Hc. induction w as [|d w IH]; simpl; [by rewrite Hc|].
  apply all_space_cons in Hw as [Hd Hw]. by rewrite Hd, (IH Hw).
Qed.

Lemma opening_at_Some s op r :
  opening_at s = Some (op, r) -> s = op +:+ r /\ is_opening op.
Proof.
  unfold opening_at.
  destruct (strip_prefix "TASK" s) as [r0|] eqn:H0; [|discriminate].
  apply strip_prefix_Some in H0 as ->.
  destruct (span_space r0) as [w1 r1] eqn:H1.
  destruct (span_space_spec _ _ _ H1) as [-> Hw1].
  destruct (strip_prefix "=" r1) as [r2|] eqn:H2; [|discriminate].
  apply strip_prefix_Some in H2 as ->.
  destruct (span_space r2) as [w2 r3] eqn:H3.
  destruct (span_space_spec _ _ _ H3) as [-> Hw2].
  destruct (strip_prefix triple_quote r3) as [r4|] eqn:H4; [|discriminate].
  apply strip_prefix_Some in H4 as ->. intros [= <- <-]. split.
  - simpl. f_equal. rewrite !append_assoc. simpl. by rewrite !append_assoc.
  - by exists w1, w2.
Qed.

Lemma opening_at_app op r : is_opening op -> opening_at (op +:+ r) = Some (op, r).
Proof.
  intros (w1 & w2 & Hw1 & Hw2 & ->). unfold opening_at.
  rewrite !append_assoc, strip_prefix_app.
  change ("=" +:+ w2 +:+ triple_quote +:+ r) with (String "=" (w2 +:+ triple_quote +:+ r)).
  rewrite (span_space_app w1 "=" _ Hw1 eq_refl). cbn [strip_prefix Ascii.eqb Bool.eqb].
  change (triple_quote +:+ r) with (String dq (String dq (String dq r))).
  rewrite (span_space_app w2 dq _ Hw2 eq_refl). cbn [strip_prefix triple_quote].
  rewrite !Ascii.eqb_refl. reflexivity.
Qed.

Lemma mem_app c a b : mem c (a +:+ b) = mem c a || mem c b.
Proof. induction a as [|d a IH]; simpl; [done|]. by rewrite IH, orb_assoc. Qed.

Lemma mem_all_space c w : is_space c = false -> all_space w -> mem c w = false.
Proof.
  intros Hc. induction w as [|d w IH]; intros Hw; [done|].
  apply all_space_cons in Hw as [Hd Hw]. simpl. rewrite (IH Hw), orb_false_r.
  destruct (Ascii.eqb_spec c d) as [->|]; [congruence | done].
Qed.

(** An opening starts with a T and has no other. *)
Lemma opening_one_T op :
  is_opening op -> exists op', op = String "T" op' /\ mem "T" op' = false.
Proof.
  intros (w1 & w2 & Hw1 & Hw2 & ->).
  exists ("ASK" +:+ w1 +:+ "=" +:+ w2 +:+ triple_quote). split; [done|].
  rewrite !mem_app, (mem_all_space "T" w1), (mem_all_space "T" w2) by done.
  reflexivity.
Qed.

(** An opening found in front of a text that starts with a T, or of
    nothing, lies before that text. *)
Lemma opening_before ch x z op r :
  opening_at (String ch x +:+ z) = Some (op, r) ->
  (z = EmptyString \/ exists z', z = String "T" z') ->
  exists x2, String ch x = op +:+ x2 /\ r = x2 +:+ z.
Proof.
  intros Hop Hz. apply opening_at_Some in Hop as [Heq Hopen].
  destruct (app_eq_split _ _ _ _ Heq) as [(e & He & ->) | (y & e & Hop & Hzeq)].
  - by exists e.
  - exfalso. destruct Hz as [-> | (z' & ->)]; [discriminate|].
    simpl in Hzeq. injection Hzeq as <- _.
    destruct (opening_one_T op Hopen) as (op' & Hop' & Hmem).
    rewrite Hop in Hop'. simpl in Hop'. injection Hop' as _ <-.
    rewrite mem_app in Hmem. simpl in Hmem. by rewrite orb_true_r in Hmem.
Qed.

End TaskPatternFacts.

Section SubFacts.

Lemma match_task_at_Some s m rest :
  match_task_at s = Some (m, rest) ->
  s = m +:+ rest /\ (exists m', m = String "T" m') /\ until_triple_quote s <> None.
Proof.
  unfold match_task_at.
  destruct (opening_at s) as [[op r]|] eqn:Hop; [|discriminate].
  destruct (until_triple_quote r) as [[body rest']|] eqn:Hb; [|discriminate].
  intros [= <- <-]. destruct (opening_at_Some _ _ _ Hop) as [-> Hopen].
  destruct (utq_Some _ _ _ Hb) as (-> & b & ->).
  destruct (opening_one_T op Hopen) as (op' & -> & _).
  split; [simpl; by rewrite !append_assoc|]. split; [by eexists|].
  intros Hn. apply utq_None_app in Hn as [_ Hn].
  rewrite append_assoc in Hn. by apply utq_app_tq in Hn.
Qed.

Lemma match_task_at_no_delimiter s :
  until_triple_quote s = None -> match_task_at s = None.
Proof.
  intros Hn. destruct (match_task_at s) as [[m rest]|] eqn:Hm; [|done].
  by destruct (match_task_at_Some _ _ _ Hm) as (_ & _ & ?).
Qed.

Lemma sub_from_skip e p r :
  sub_from e (String.length p) (p +:+ r) = sub_from e 0 r.
Proof. induction p as [|c p IH]; simpl; [by destruct r | exact IH]. Qed.

(** The substitution, one match at a time. *)
Lemma sub_from_cons e c s :
  sub_from e 0 (String c s) =
  match match_task_at (String c s) with
  | Some (m, rest) => e m +:+ sub_from e 0 rest
  | None => String c (sub_from e 0 s)
  end.
Proof.
  cbn [sub_from]. destruct (match_task_at (String c s)) as [[m rest]|] eqn:Hm; [|done].
  destruct (match_task_at_Some _ _ _ Hm) as (Heq & (m' & ->) & _).
  simpl in Heq. injection Heq as _ ->. simpl. by rewrite Nat.sub_0_r, sub_from_skip.
Qed.

Lemma sub_from_no_delimiter e s :
  until_triple_quote s = None -> sub_from e 0 s = s.
Proof.
  induction s as [|c s IH]; intros Hn; [done|].
  rewrite sub_from_cons, (match_task_at_no_delimiter _ Hn).
  change (String c s) with (String c EmptyString +:+ s) in Hn.
  apply utq_None_app in Hn as [_ Hn]. by rewrite IH.
Qed.

Lemma search_no_delimiter s : until_triple_quote s = None -> search s = false.
Proof.
  induction s as [|c s IH]; intros Hn; [done|].
  cbn [search]. rewrite (match_task_at_no_delimiter _ Hn).
  change (String c s) with (String c EmptyString +:+ s) in Hn.
  apply utq_None_app in Hn as [_ Hn]. by apply IH.
Qed.

Lemma search_app p t m rest :
  match_task_at t = Some (m, rest) -> search (p +:+ t) = true.
Proof.
  intros Hm. induction p as [|c p IH].
  - simpl. destruct (match_task_at_Some _ _ _ Hm) as (_ & (m' & ->) & _).
    destruct t as [|c t]; [discriminate|]. cbn [search]. by rewrite Hm.
  - change (String c p +:+ t) with (String c (p +:+ t)). cbn [search].
    destruct (match_task_at (String c (p +:+ t))); [done | exact IH].
Qed.

(** [until_triple_quote] finds nothing exactly in the texts where the
    delimiter does not occur. *)
Lemma no_delimiter_iff s :
  until_triple_quote s = None <-> ~ exists a b, s = a +:+ triple_quote +:+ b.
Proof.
  split.
  - intros H (a & b & ->). by apply utq_app_tq in H.
  - intros H. destruct (until_triple_quote s) as [[m r]|] eqn:Hu; [|done].
    exfalso. apply H. destruct (utq_Some _ _ _ Hu) as (-> & b & ->).
    exists b, r. by rewrite append_assoc.
Qed.

(** [search] succeeds exactly on the texts that hold a task block. *)
Lemma search_true_iff s :
  search s = true <->
  exists p m rest, s = p +:+ m +:+ rest /\ match_task_at (m +:+ rest) = Some (m, rest).
Proof.
  split.
  - induction s as [|c s IH]; [discriminate|]. cbn [search].
    destruct (match_task_at (String c s)) as [[m rest]|] eqn:Hm.
    + intros _. destruct (match_task_at_Some _ _ _ Hm) as (Heq & _).
      exists EmptyString, m, rest. split; [done | by rewrite <- Heq].
    + intros Hs. destruct (IH Hs) as (p & m & rest & -> & Hm').
      by exists (String c p), m, rest.
  - intros (p & m & rest & -> & Hm). by apply (search_app p _ m rest).
Qed.

End SubFacts.

(** Folds the substitution by a literal block back into [replace_all]. *)
Ltac refold N :=
  repeat match goal with
         | |- context [TaskPattern.sub_from (fun _ => N) 0 ?t] =>
             progress fold (Block.replace_all N t)
         end.

Section Idempotence.
Variable N : string.
Hypothesis HN : is_block N.

Lemma block_starts_with_T : exists N', N = String "T" N'.
Proof.
  destruct (match_task_at_Some _ _ _ (HN EmptyString)) as (_ & H & _). exact H.
Qed.

Lemma sub_block x : replace_all N (N +:+ x) = N +:+ replace_all N x.
Proof.
  unfold replace_all. destruct block_starts_with_T as [N' HN'].
  pose proof (HN x) as Hm. rewrite HN' in Hm |- * at 1.
  cbn [String.append] in *. by rewrite sub_from_cons, Hm.
Qed.

(** The text before the first match is kept, and what comes in place of
    the first match starts with a T. *)
Lemma sub_decompose s :
  exists X Z0 Z, s = X +:+ Z0 /\ replace_all N s = X +:+ Z /\
    ((Z0 = EmptyString /\ Z = EmptyString) \/
     (until_triple_quote Z0 <> None /\ exists Z', Z = String "T" Z')).
Proof.
  induction s as [|c s IH].
  - exists EmptyString, EmptyString, EmptyString. auto.
  - unfold replace_all. rewrite sub_from_cons.
    destruct (match_task_at (String c s)) as [[m rest]|] eqn:Hm.
    + exists EmptyString, (String c s), (N +:+ sub_from (fun _ => N) 0 rest).
      split; [done|]. split; [done|]. right. split.
      * by destruct (match_task_at_Some _ _ _ Hm) as (_ & _ & ?).
      * destruct block_starts_with_T as [N' ->]. by eexists.
    + destruct IH as (X & Z0 & Z & -> & HZ & Hcase).
      exists (String c X), Z0, Z. split; [done|]. split; [|done].
      refold N. by rewrite HZ.
Qed.

(** A position where the pattern does not match still does not match once
    the text after it has been substituted. *)
Lemma no_match_after_sub c s :
  match_task_at (String c s) = None -> match_task_at (String c (replace_all N s)) = None.
Proof.
  intros Hnone. destruct (sub_decompose s) as (X & Z0 & Z & -> & -> & Hcase).
  destruct Hcase as [[-> ->] | [HZ0 HZ]]; [done|].
  destruct (match_task_at (String c (X +:+ Z))) as [[m rest]|] eqn:Hm; [|done].
  exfalso. unfold match_task_at in Hm, Hnone.
  change (String c (X +:+ Z)) with (String c X +:+ Z) in Hm.
  destruct (opening_at (String c X +:+ Z)) as [[op r]|] eqn:Hop; [|discriminate].
  destruct (opening_before _ _ _ _ _ Hop (or_intror HZ)) as (x2 & Hx & ->).
  destruct (opening_at_Some _ _ _ Hop) as [_ Hopen].
  change (String c (X +:+ Z0)) with (String c X +:+ Z0) in Hnone.
  rewrite Hx, append_assoc, (opening_at_app op _ Hopen) in Hnone.
  destruct (until_triple_quote (x2 +:+ Z0)) as [[? ?]|] eqn:Hu; [discriminate|].
  by apply utq_None_app in Hu as [_ Hu].
Qed.

Lemma sub_idempotent_upto n s :
  (String.length s <= n)%nat -> replace_all N (replace_all N s) = replace_all N s.
Proof.
  revert s; induction n as [|n IH]; intros s Hlen.
  - destruct s; [done | simpl in Hlen; lia].
  - destruct s as [|c s]; [done|]. unfold replace_all at 2 3. rewrite sub_from_cons.
    destruct (match_task_at (String c s)) as [[m rest]|] eqn:Hm.
    + refold N. rewrite sub_block. f_equal. apply IH.
      destruct (match_task_at_Some _ _ _ Hm) as (Heq & (m' & ->) & _).
      rewrite Heq, length_append in Hlen. simpl in Hlen. lia.
    + refold N. unfold replace_all at 1. rewrite sub_from_cons.
      rewrite (no_match_after_sub _ _ Hm). refold N. f_equal. apply IH.
      simpl in Hlen. lia.
Qed.

(** Substituting twice is substituting once. *)
Lemma sub_idempotent s : replace_all N (replace_all N s) = replace_all N s.
Proof. by apply (sub_idempotent_upto (String.length s)). Qed.

Lemma search_sub s : search s = true -> search (replace_all N s) = true.
Proof.
  induction s as [|c s IH]; [done|].
  unfold replace_all. rewrite sub_from_cons. cbn [search].
  destruct (match_task_at (String c s)) as [[m rest]|] eqn:Hm.
  - intros _. apply (search_app EmptyString _ N (sub_from (fun _ => N) 0 rest)). apply HN.
  - intros Hs. refold N. cbn [search].
    destruct (match_task_at (String c (replace_all N s))); [done | by apply IH].
Qed.

(** A block put after a text without delimiter, and before one. *)
Lemma sub_inserted_block P Q :
  until_triple_quote P = None -> until_triple_quote Q = None ->
  replace_all N (P +:+ N +:+ Q) = P +:+ N +:+ Q /\ search (P +:+ N +:+ Q) = true.
Proof.
  intros HP HQ. split; [|by apply (search_app P _ N Q)].
  induction P as [|c P IH].
  - simpl. rewrite sub_block. f_equal. by apply sub_from_no_delimiter.
  - change (String c P +:+ N +:+ Q) with (String c (P +:+ N +:+ Q)).
    unfold replace_all. rewrite sub_from_cons. refold N.
    assert (match_task_at (String c (P +:+ N +:+ Q)) = None) as ->.
    { destruct (match_task_at (String c (P +:+ N +:+ Q))) as [[m rest]|] eqn:Hm; [|done].
      exfalso. unfold match_task_at in Hm.
      change (String c (P +:+ N +:+ Q)) with (String c P +:+ (N +:+ Q)) in Hm.
      destruct (opening_at (String c P +:+ (N +:+ Q))) as [[op r]|] eqn:Hop; [|discriminate].
      destruct block_starts_with_T as [N' HN'].
      assert (exists z', N +:+ Q = String "T" z') as Hz by (rewrite HN'; by eexists).
      destruct (opening_before _ _ _ _ _ Hop (or_intror Hz)) as (x2 & Hx & ->).
      destruct (opening_at_Some _ _ _ Hop) as [_ (w1 & w2 & _ & _ & ->)].
      rewrite Hx in HP. rewrite !append_assoc in HP.
      do 4 apply utq_None_app in HP as [_ HP].
      by apply (utq_app_tq EmptyString) in HP. }
    f_equal. apply IH.
    change (String c P) with (String c EmptyString +:+ P) in HP.
    by apply utq_None_app in HP as [_ HP].
Qed.

End Idempotence.

Section BlockFacts.

Lemma strip_delimiter_glue a c y :
  strip_prefix triple_quote a = None -> c <> dq ->
  strip_prefix triple_quote (a +:+ String c y) = None.
Proof.
  intros Ha Hc.
  assert (Ascii.eqb dq c = false) as Hc' by (by apply Ascii.eqb_neq).
  unfold triple_quote in *.
  destruct a as [|a1 [|a2 [|a3 a]]]; cbn [strip_prefix String.append] in *;
    rewrite ?Hc';
    repeat match goal with
           | |- context [Ascii.eqb dq ?z] => destruct (Ascii.eqb dq z); try done
           end;
    done.
Qed.

Lemma utq_glue a c y :
  until_triple_quote a = None -> c <> dq ->
  until_triple_quote (a +:+ String c y) = prepend a <$> until_triple_quote (String c y).
Proof.
  intros Ha Hc. remember (until_triple_quote (String c y)) as u eqn:Hu0.
  induction a as [|d a IH].
  - change (EmptyString +:+ String c y) with (String c y). rewrite <- Hu0.
    by destruct u as [[? ?]|].
  - cbn [until_triple_quote] in Ha.
    destruct (strip_prefix triple_quote (String d a)) eqn:Hs; [discriminate|].
    destruct (until_triple_quote a) as [[? ?]|] eqn:Hu; [discriminate|].
    change (String d a +:+ String c y) with (String d (a +:+ String c y)).
    cbn [until_triple_quote].
    change (String d (a +:+ String c y)) with (String d a +:+ String c y).
    rewrite (strip_delimiter_glue _ c y Hs Hc), (IH eq_refl).
    by destruct u as [[? ?]|].
Qed.

Lemma utq_literal a b :
  mem dq a = false ->
  until_triple_quote (a +:+ b) = prepend a <$> until_triple_quote b.
Proof.
  induction a as [|d a IH]; intros Ha.
  - change (EmptyString +:+ b) with b. by destruct (until_triple_quote b) as [[? ?]|].
  - cbn [mem] in Ha. apply orb_false_iff in Ha as [Hd Ha].
    change (String d a +:+ b) with (String d (a +:+ b)). cbn [until_triple_quote].
    cbn [strip_prefix triple_quote]. rewrite Hd, (IH Ha).
    by destruct (until_triple_quote b) as [[? ?]|].
Qed.

Lemma has_backslash_app a b :
  has_backslash (a +:+ b) = has_backslash a || has_backslash b.
Proof. induction a as [|c a IH]; simpl; [done|]. by rewrite IH, orb_assoc. Qed.

(** The target URL is a piece of the story, or the default. *)
Lemma first_url_or_default_clean story :
  until_triple_quote story = None -> has_backslash story = false ->
  until_triple_quote (first_url_or_default story) = None /\
  has_backslash (first_url_or_default story) = false.
Proof.
  intros Hq Hb. unfold first_url_or_default.
  pose proof (findall_head story) as H. destruct (findall story) as [|u us]; [done|].
  destruct H as (pre & post & -> & _). split.
  - apply utq_None_app in Hq as [_ Hq]. by apply utq_None_app in Hq as [Hq _].
  - rewrite !has_backslash_app in Hb.
    apply orb_false_iff in Hb as [_ Hb]. by apply orb_false_iff in Hb as [Hb _].
Qed.

Lemma new_task_no_backslash url story :
  has_backslash url = false -> has_backslash story = false ->
  has_backslash (new_task url story) = false.
Proof.
  intros Hu Hs. unfold new_task. rewrite !has_backslash_app, Hu, Hs. reflexivity.
Qed.

Lemma new_task_shape url story :
  new_task url story =
  ("TASK" +:+ " " +:+ "=" +:+ " " +:+ triple_quote) +:+
  block_body url story +:+ String (ascii_of_nat 10) triple_quote.
Proof.
  unfold new_task, block_body, nl.
  repeat (progress (cbn [String.append]; rewrite ?append_assoc)).
  reflexivity.
Qed.

Lemma block_body_clean url story :
  until_triple_quote url = None -> until_triple_quote story = None ->
  until_triple_quote (block_body url story) = None.
Proof.
  intros Hu Hs. unfold block_body.
  rewrite utq_literal by reflexivity.
  rewrite utq_glue by (done || discriminate).
  change (String "," (nl +:+ story +:+ String (ascii_of_nat 10) "And verify the task is completed."))
    with (("," +:+ nl) +:+ story +:+ String (ascii_of_nat 10) "And verify the task is completed.").
  rewrite (utq_literal ("," +:+ nl)) by reflexivity.
  rewrite utq_glue by (done || discriminate).
  reflexivity.
Qed.

(** The block the writer builds is a task block when neither the story nor
    the URL holds the delimiter. *)
Lemma new_task_is_block url story :
  until_triple_quote url = None -> until_triple_quote story = None ->
  is_block (new_task url story).
Proof.
  intros Hu Hs x. unfold match_task_at. rewrite new_task_shape at 1.
  rewrite append_assoc, opening_at_app.
  2: { exists " ", " ". split; [|split; [|done]]; intros c [<-|[]]; reflexivity. }
  rewrite append_assoc.
  change (String (ascii_of_nat 10) triple_quote +:+ x)
    with (String (ascii_of_nat 10) (triple_quote +:+ x)).
  rewrite utq_glue by (by apply block_body_clean || discriminate).
  cbn [until_triple_quote String.append triple_quote strip_prefix].
  assert (Ascii.eqb dq (ascii_of_nat 10) = false) as -> by reflexivity.
  rewrite !Ascii.eqb_refl. cbn [fmap option_fmap option_map prepend fst snd].
  by rewrite new_task_shape.
Qed.

End BlockFacts.

Section InsertFacts.

Lemma join_lines_cons l ls :
  join_lines (l :: ls) =
  match ls with [] => l | _ :: _ => l +:+ nl +:+ join_lines ls end.
Proof. by destruct ls. Qed.

Lemma join_lines_app A B :
  join_lines (A ++ B) =
  match A, B with
  | [], _ => join_lines B
  | _, [] => join_lines A
  | _ :: _, _ :: _ => join_lines A +:+ nl +:+ join_lines B
  end.
Proof.
  induction A as [|a A IH]; [done|]. destruct B as [|b B]; [by rewrite app_nil_r|].
  cbn [app]. rewrite (join_lines_cons a (A ++ b :: B)), IH, (join_lines_cons a A).
  destruct A as [|a' A]; [done|]. cbn [app]. by rewrite !append_assoc.
Qed.

Lemma join_split c : join_lines (split_lines c) = c.
Proof.
  induction c as [|x c IH]; [done|]. cbn [split_lines].
  destruct (Ascii.eqb_spec x (ascii_of_nat 10)) as [->|Hx].
  - rewrite join_lines_cons. destruct (split_lines c) as [|l ls] eqn:Hl.
    + by destruct c; cbn in Hl; repeat destruct (Ascii.eqb _ _); try destruct (split_lines _).
    + by rewrite IH.
  - destruct (split_lines c) as [|l ls] eqn:Hl.
    + exfalso. destruct c; cbn in Hl; [done|].
      destruct (Ascii.eqb _ _); [done|]. by destruct (split_lines _).
    + rewrite join_lines_cons in *. destruct ls; simpl in *; by rewrite IH.
Qed.

(** The new block, inserted between lines of a text without delimiter,
    stands between two texts without delimiter. *)
Lemma inserted_shape c N i :
  until_triple_quote c = None ->
  exists P Q,
    join_lines (list_insert_at i (nl +:+ N +:+ nl) (split_lines c)) = P +:+ N +:+ Q /\
    until_triple_quote P = None /\ until_triple_quote Q = None.
Proof.
  intros Hc. unfold list_insert_at.
  pose proof (take_drop i (split_lines c)) as Htd.
  pose proof (join_split c) as Hj. rewrite <- Htd, join_lines_app in Hj.
  rewrite join_lines_app, join_lines_cons.
  destruct (take i (split_lines c)) as [|a A], (drop i (split_lines c)) as [|b B].
  - by exists nl, nl.
  - exists nl, (nl +:+ nl +:+ join_lines (b :: B)). split; [by rewrite !append_assoc|].
    split; [done|]. rewrite <- append_assoc, utq_literal by reflexivity.
    by rewrite Hj, Hc.
  - exists (join_lines (a :: A) +:+ String (ascii_of_nat 10) nl), nl.
    split; [by rewrite !append_assoc|]. split; [|done].
    rewrite utq_glue by (by rewrite Hj || discriminate). reflexivity.
  - rewrite <- Hj in Hc. apply utq_None_app in Hc as [HA HB].
    apply utq_None_app in HB as [_ HB].
    exists (join_lines (a :: A) +:+ String (ascii_of_nat 10) nl),
           (nl +:+ nl +:+ join_lines (b :: B)).
    split; [by rewrite !append_assoc|]. split.
    + rewrite utq_glue by (done || discriminate). reflexivity.
    + rewrite <- append_assoc, utq_literal by reflexivity. by rewrite HB.
Qed.

End InsertFacts.

Section WriterIdempotence.

(** Once the writer has run on a story without backslash and without
    delimiter, the content it leaves is a fixed point of the writer. *)
Lemma updated_content_fixed story c c1 :
  has_backslash story = false -> until_triple_quote story = None ->
  (search c = true \/ until_triple_quote c = None) ->
  let N := new_task (first_url_or_default story) story in
  updated_content N c = Some c1 -> updated_content N c1 = Some c1.
Proof.
  intros Hb Hq Hc N. destruct (first_url_or_default_clean story Hq Hb) as [Huq Hub].
  assert (is_block N) as HN by (by apply new_task_is_block).
  assert (has_backslash N = false) as HNb by (by apply new_task_no_backslash).
  clearbody N. unfold updated_content, re_sub. rewrite HNb. cbv zeta.
  destruct (search c) eqn:Hs.
  - intros [= <-]. refold N. by rewrite (search_sub N HN c Hs), (sub_idempotent N HN).
  - destruct Hc as [|Hc]; [done|].
    destruct (inserted_shape c N (insert_index (split_lines c)) Hc) as (P & Q & -> & HP & HQ).
    intros [= <-].
    destruct (sub_inserted_block N HN P Q HP HQ) as [Hsub ->].
    unfold replace_all in Hsub. by rewrite Hsub.
Qed.

Lemma update_task_result story f :
  (update_task_in_log_file story f).1 = f \/
  exists c c1,
    content f = Some c /\
    updated_content (new_task (first_url_or_default story) story) c = Some c1 /\
    (update_task_in_log_file story f).1 = {| content := Some c1; writable := true |}.
Proof.
  unfold update_task_in_log_file.
  destruct (content f) as [c|] eqn:Hcf; [|by left].
  destruct (updated_content _ c) as [c1|] eqn:Hu; [|by left].
  destruct (writable f); [|by left]. right. by exists c, c1.
Qed.


End WriterIdempotence.


(** An opening that is never closed, before the import lines: the second
    run matches from it to the opening of the new block. *)
Lemma writer_not_idempotent_open_block :
  ~ writer_idempotence_claim Samples.story_with_url Samples.file_with_open_block.
Proof. unfold writer_idempotence_claim. vm_compute. discriminate. Qed.



(** ** C6: rejected submissions *)

Section Submission.
Import Model Chat.

Lemma findall_nil_iff story : findall story = [] <-> ~ has_url story.
Proof.
  pose proof (findall_head story) as H. destruct (findall story) as [|u us].
  - done.
  - split; [discriminate|]. intros Hno. destruct H as (pre & post & Heq & Hu & _).
    exfalso. apply Hno. by exists pre, u, post.
Qed.



(** With a module missing, a story without URL gets the list of the
    missing modules, not the prompt. *)
Lemma submission_modules_missing :
  (chat (Samples.env_module_missing None Samples.fs_empty) "Test login" fresh_app).2 =
  inr (Said (cannot_start_text ["TestSteps.py: No module named 'TestSteps'"])).
Proof. reflexivity. Qed.

(** Without the message list in the session, the handler raises. *)
Lemma submission_without_messages :
  chat Samples.scenario_A_env "Test login"
       {| session := {| messages := None; current_workflow := None |};
          active_workflows := ∅ |} =
  ({| session := {| messages := None; current_workflow := None |};
      active_workflows := ∅ |}, inl "KeyError: 'messages'").
Proof. reflexivity. Qed.


End Submission.
